(** * vtkVolumeReconstructor: a shallow embedding and its properties

    The development follows
    [PlusLib/src/VolumeReconstruction/vtkVolumeReconstructor.cxx].

    Modelling conventions.
    - A C++ [double] is a rational in canonical form ([Qc]): the finite
      doubles are among them, and there is no NaN and no infinity.
      Comparisons and the conversion from [int] are exact, as they are in
      IEEE 754.  The arithmetic the class itself does, the subtraction and
      the division of lines 207-209, is evaluated in the type [double]: each
      operation rounds its exact result to the nearest binary64 number, ties
      to even ([Double.round]).  The products and sums inside the VTK
      primitives [Multiply4x4] and [MultiplyPoint] are kept exact.  An
      operation whose IEEE result would be an infinity or a NaN (an
      overflow, a division by zero) and a conversion whose result C++ leaves
      undefined (a [double] outside the range of [int]) have no value: they
      return [None].
    - A C++ [int] is a [Z]; conversions check the 32-bit range.
    - A C array ([double*], [int*], [double[16]]) is a list read with [nth]
      and written with [store]; the sizes the source fixes appear as length
      hypotheses where a statement needs them.  A local array declared
      without an initializer starts with contents that are a parameter.
    - The object state is passed explicitly: a method takes the object and
      returns its status together with the new object. *)

From Stdlib Require Import ZArith QArith Qcanon Qround List Bool String.
From Stdlib Require Import Permutation Morphisms Lia Lqa.
From Stdlib Require Import Ascii Decimal DecimalString DecimalNat.
Import ListNotations.

Set Warnings "-register-all".

Local Open Scope Qc_scope.

(** ** Scalars *)

Definition double : Type := Qc.

Module Double.

(** [a < b] on doubles, as a boolean. *)
Definition ltb (a b : double) : bool :=
  match a ?= b with
  | Lt => true
  | _ => false
  end.

(** [a > b] is [b < a]. *)
Definition gtb (a b : double) : bool := ltb b a.

(** Implicit conversion [int -> double] (exact: every 32-bit integer is a
    double). *)
Definition of_int (z : Z) : double := Q2Qc (inject_Z z).

Definition INT_MIN : Z := - 2 ^ 31.
Definition INT_MAX : Z := 2 ^ 31 - 1.

(** Truncation toward zero, the value of [int(x)] when it is representable. *)
Definition trunc (x : double) : Z := Z.quot (Qnum x) (Zpos (Qden x)).

(** [int(x)]: truncation toward zero; undefined when the truncated value is
    not representable in [int]. *)
Definition to_int (x : double) : option Z :=
  let t := trunc x in
  if (INT_MIN <=? t)%Z && (t <=? INT_MAX)%Z then Some t else None.

(** *** Rounding to binary64

    A finite double is [m * 2^e] with [|m| < 2^53] and
    [-1074 <= e <= 971]. *)

(** [2^e] as a double. *)
Definition pow2 (e : Z) : double :=
  match e with
  | Zneg p => Q2Qc (1 # 2 ^ p)
  | _ => of_int (2 ^ e)
  end.

(** The integer part of the binary logarithm of [n / d]. *)
Definition ilog2 (n d : positive) : Z :=
  let k := (Z.log2 (Zpos n) - Z.log2 (Zpos d))%Z in
  if (Zpos d * 2 ^ Z.max 0 k <=? Zpos n * 2 ^ Z.max 0 (- k))%Z
  then k else (k - 1)%Z.

(** The integer nearest to [a / b], the even one of the two when [a / b] is
    half way between them. *)
Definition nearest_even (a b : Z) : Z :=
  let f := (a / b)%Z in
  match (2 * (a mod b) ?= b)%Z with
  | Lt => f
  | Gt => (f + 1)%Z
  | Eq => if Z.even f then f else (f + 1)%Z
  end.

(** The exponent of the last of the 53 bits of [n / d]; it stops at [-1074],
    where the subnormal numbers begin. *)
Definition ulp_exponent (n d : positive) : Z :=
  Z.max (ilog2 n d - 52) (-1074).

Definition round_pos (n d : positive) : double :=
  let e := ulp_exponent n d in
  of_int (nearest_even (Zpos n * 2 ^ Z.max 0 (- e)) (Zpos d * 2 ^ Z.max 0 e))
  * pow2 e.

(** The binary64 number nearest to [x], ties to even, with no bound on the
    exponent from above. *)
Definition round (x : double) : double :=
  match Qnum x with
  | Z0 => 0
  | Zpos n => round_pos n (Qden x)
  | Zneg n => - round_pos n (Qden x)
  end.

(** The largest finite double. *)
Definition DBL_MAX : double := of_int ((2 ^ 53 - 1) * 2 ^ 971).

(** The result of an arithmetic operation whose exact value is [x]: [x]
    rounded; no value when that is beyond [DBL_MAX], where IEEE 754 gives an
    infinity. *)
Definition rounded (x : double) : option double :=
  let y := round x in
  if ltb DBL_MAX y || ltb y (- DBL_MAX) then None else Some y.

(** [a - b]. *)
Definition sub (a b : double) : option double := rounded (a - b).

(** [a / b]: no value when the divisor is zero. *)
Definition div (a b : double) : option double :=
  if Qc_eq_dec b 0 then None else rounded (a / b).

(** The mathematical floor, used to state the extent formula. *)
Definition floor (x : double) : Z := Qfloor x.

Definition min (a b : double) : double := if ltb b a then b else a.
Definition max (a b : double) : double := if ltb a b then b else a.

Arguments trunc x%_Qc.
Arguments to_int x%_Qc.
Arguments floor x%_Qc.
Arguments round x%_Qc.
Arguments pow2 e%_Z.

End Double.

(** ** Arrays *)

(** [a[i] = x] on an array held as a list; the source never writes outside
    the array, where this function leaves the list as it is. *)
Fixpoint store {A : Type} (i : nat) (x : A) (a : list A) : list A :=
  match a with
  | [] => []
  | h :: t =>
      match i with
      | O => x :: t
      | S j => h :: store j x t
      end
  end.

(** [a[i]] on an array of doubles. *)
Definition load (a : list double) (i : nat) : double := nth i a 0.

(** ** The VTK primitives the class calls *)

Inductive PlusStatus : Type := PLUS_FAIL | PLUS_SUCCESS.

(** [vtkMatrix4x4]: the sixteen elements in row-major order, the layout of
    [double Element[4][4]] and of the [double[16]] arrays copied into it. *)
Definition vtkMatrix4x4 : Type := list double.

Definition GetElement (m : vtkMatrix4x4) (i j : nat) : double :=
  load m (4 * i + j).

(** The matrix of a freshly created [vtkMatrix4x4] or [vtkTransform]. *)
Definition Identity : vtkMatrix4x4 :=
  [1; 0; 0; 0;
   0; 1; 0; 0;
   0; 0; 1; 0;
   0; 0; 0; 1].

(** [vtkMatrix4x4::DeepCopy(const double[16])]. *)
Definition DeepCopy (elements : list double) : vtkMatrix4x4 :=
  map (load elements) (seq 0 16).

(** [vtkMatrix4x4::Multiply4x4(a, b, c)]: [c[i][k]] is the sum over the inner
    index of [a[i][.] * b[.][k]], accumulated left to right. *)
Definition Multiply4x4 (a b : vtkMatrix4x4) : vtkMatrix4x4 :=
  flat_map
    (fun i =>
       map
         (fun k =>
            GetElement a i 0 * GetElement b 0 k +
            GetElement a i 1 * GetElement b 1 k +
            GetElement a i 2 * GetElement b 2 k +
            GetElement a i 3 * GetElement b 3 k)
         (seq 0 4))
    (seq 0 4).

(** [vtkMatrix4x4::MultiplyPoint(in, out)] on homogeneous points. *)
Definition MultiplyPoint (m : vtkMatrix4x4) (p : list double) : list double :=
  let v1 := load p 0 in
  let v2 := load p 1 in
  let v3 := load p 2 in
  let v4 := load p 3 in
  [ v1 * load m 0 + v2 * load m 1 + v3 * load m 2 + v4 * load m 3;
    v1 * load m 4 + v2 * load m 5 + v3 * load m 6 + v4 * load m 7;
    v1 * load m 8 + v2 * load m 9 + v3 * load m 10 + v4 * load m 11;
    v1 * load m 12 + v2 * load m 13 + v3 * load m 14 + v4 * load m 15 ].

(** [vtkImageData]: the index extent [x0 x1 y0 y1 z0 z1], the spacing, the
    origin, and the scalars as VTK stores them: one tuple of
    [NumberOfScalarComponents] values per voxel, tuples in voxel order. *)
Record vtkImageData : Type := mkImage {
  Extent : list Z;
  Spacing : list double;
  Origin : list double;
  NumberOfScalarComponents : nat;
  Scalars : list Z
}.

(** The number of voxels of an extent (zero when an axis is empty). *)
Definition NumberOfPointsZ (extent : list Z) : Z :=
  let dim (lo hi : nat) :=
    (Z.max 0 (nth hi extent 0 - nth lo extent 0 + 1))%Z in
  (dim 0%nat 1%nat * dim 2%nat 3%nat * dim 4%nat 5%nat)%Z.

Definition NumberOfPoints (extent : list Z) : nat :=
  Z.to_nat (NumberOfPointsZ extent).

(** Component [c] of the tuple of voxel [idx]. *)
Definition GetScalarComponent (img : vtkImageData) (idx c : nat) : Z :=
  nth (idx * NumberOfScalarComponents img + c) (Scalars img) 0%Z.

(** [vtkImageExtractComponents] with [SetComponents(c)]: the output keeps the
    geometry of the input and holds, for every voxel, the single component
    [c] of the input tuple. *)
Definition vtkImageExtractComponents (c : nat) (input : vtkImageData)
  : vtkImageData :=
  {| Extent := Extent input;
     Spacing := Spacing input;
     Origin := Origin input;
     NumberOfScalarComponents := 1;
     Scalars :=
       map (fun idx => GetScalarComponent input idx c)
           (seq 0 (NumberOfPoints (Extent input))) |}.

(** [vtkXMLDataElement]: a name, the attributes in document order and the
    nested elements in document order.  Attribute values are strings. *)
Inductive vtkXMLDataElement : Type :=
| XMLElement (name : string)
             (attributes : list (string * string))
             (nested : list vtkXMLDataElement).

Definition GetName (e : vtkXMLDataElement) : string :=
  match e with XMLElement n _ _ => n end.

Definition GetAttributes (e : vtkXMLDataElement) : list (string * string) :=
  match e with XMLElement _ a _ => a end.

Definition GetNestedElements (e : vtkXMLDataElement) : list vtkXMLDataElement :=
  match e with XMLElement _ _ l => l end.

(** [GetAttribute(name)]: the value of the first attribute of that name, or
    [NULL]. *)
Definition GetAttribute (e : vtkXMLDataElement) (name : string)
  : option string :=
  option_map snd
    (find (fun a => String.eqb (fst a) name) (GetAttributes e)).

(** [FindNestedElementWithName(name)]: the first directly nested element of
    that name, or [NULL]. *)
Definition FindNestedElementWithName (e : vtkXMLDataElement) (name : string)
  : option vtkXMLDataElement :=
  find (fun n => String.eqb (GetName n) name) (GetNestedElements e).

(** [FindNestedElementWithNameAndAttribute(name, att_name, att_value)]: the
    first directly nested element of that name that carries the attribute
    with that value, or [NULL]. *)
Definition FindNestedElementWithNameAndAttribute
  (e : vtkXMLDataElement) (name att_name att_value : string)
  : option vtkXMLDataElement :=
  find
    (fun n =>
       String.eqb (GetName n) name &&
       match GetAttribute n att_name with
       | Some v => String.eqb v att_value
       | None => false
       end)
    (GetNestedElements e).

(** ** The collaborators of the class that are not part of this file *)

(** Modelled from the spec: [TrackedFrame], of which the class uses
    [GetDefaultFrameTransform] and [ImageData.GetVtkImageNonFlipped()].  A
    frame holds a 2D pixel grid and an optional pose, the sixteen doubles of
    the tool-to-reference matrix; an absent pose is the case in which
    [GetDefaultFrameTransform] returns false. *)
Record TrackedFrame : Type := mkFrame {
  DefaultFrameTransform : option (list double);
  ImageData : vtkImageData
}.

Definition GetDefaultFrameTransform (frame : TrackedFrame)
  : option (list double) := DefaultFrameTransform frame.

Definition GetVtkImageNonFlipped (frame : TrackedFrame) : vtkImageData :=
  ImageData frame.

(** [vtkVolumeReconstructorFilter] is used through its methods only; they are
    taken as an interface over an arbitrary filter state [F].  [ResetOutput]
    allocates, so besides returning a status it may throw
    [std::bad_alloc]. *)
Module Filter.

Inductive ResetOutcome (F : Type) : Type :=
| Returns (status : PlusStatus) (f : F)
| ThrowsBadAlloc (f : F).

Arguments Returns {F} status f.
Arguments ThrowsBadAlloc {F} f.

Class Ops (F : Type) : Type := {
  ReadConfiguration : vtkXMLDataElement -> F -> PlusStatus * F;
  GetOutputSpacing : F -> list double;
  SetOutputExtent : list Z -> F -> F;
  SetOutputOrigin : double -> double -> double -> F -> F;
  ResetOutput : F -> ResetOutcome F;
  InsertSlice : vtkImageData -> vtkMatrix4x4 -> F -> PlusStatus * F;
  FillHolesInOutput : F -> F;
  GetReconstructedVolume : F -> vtkImageData
}.

End Filter.

(** ** The class *)

Section VolumeReconstructor.

Context {F : Type} {filter : Filter.Ops F}.

(** [VTK_DOUBLE_MAX] and [VTK_DOUBLE_MIN], the constants of [vtkType.h] that
    seed the bounding box. *)
Variables VTK_DOUBLE_MAX VTK_DOUBLE_MIN : double.

(** The string [vtkTracker::ConvertToolTypeToString] gives for
    [TRACKER_TOOL_PROBE]. *)
Variable ProbeToolType : string.

(** The numbers that stream extraction reads from an attribute value, in
    order, up to the first token that is not a number. *)
Variable ParseDoubles : string -> list double.

(** [GetVectorAttribute(name, length, data)]: the numbers read, at most
    [length] of them, overwrite the front of [data]; the rest of [data] is
    left as it was.  The result is the count and the new [data]. *)
Definition GetVectorAttribute
  (e : vtkXMLDataElement) (name : string) (length : nat) (data : list double)
  : nat * list double :=
  match GetAttribute e name with
  | None => (O, data)
  | Some str =>
      let values := firstn length (ParseDoubles str) in
      (List.length values, values ++ skipn (List.length values) data)
  end.

(** What the local array [aImageToTool] of [ReadConfiguration] holds before
    it is written: it is declared without an initializer. *)
Variable Uninitialized : list double.

(** The members [Reconstructor] and [ImageToToolTransform]. *)
Record vtkVolumeReconstructor : Type := mkReconstructor {
  Reconstructor : F;
  ImageToToolTransform : vtkMatrix4x4
}.

(** The constructor: a new filter and the identity transform. *)
Definition New (f : F) : vtkVolumeReconstructor :=
  {| Reconstructor := f; ImageToToolTransform := Identity |}.

Definition WithReconstructor (r : vtkVolumeReconstructor) (f : F)
  : vtkVolumeReconstructor :=
  {| Reconstructor := f; ImageToToolTransform := ImageToToolTransform r |}.

Definition FillHoles (r : vtkVolumeReconstructor) : vtkVolumeReconstructor :=
  WithReconstructor r (Filter.FillHolesInOutput (Reconstructor r)).

(** [ReadConfiguration(config)], lines 61-101.  The guard on
    [GetVectorAttribute] tests the count against zero. *)
Definition ReadConfiguration
  (r : vtkVolumeReconstructor) (config : vtkXMLDataElement)
  : PlusStatus * vtkVolumeReconstructor :=
  let r := WithReconstructor r
             (snd (Filter.ReadConfiguration config (Reconstructor r))) in
  match FindNestedElementWithName config "USDataCollection" with
  | None => (PLUS_FAIL, r)
  | Some dataCollectionConfig =>
  match FindNestedElementWithName dataCollectionConfig "Tracker" with
  | None => (PLUS_FAIL, r)
  | Some trackerDefinition =>
  match FindNestedElementWithNameAndAttribute
          trackerDefinition "Tool" "Type" ProbeToolType with
  | None => (PLUS_FAIL, r)
  | Some probeDefinition =>
  match FindNestedElementWithName probeDefinition "Calibration" with
  | None => (PLUS_FAIL, r)
  | Some calibration =>
      let (count, aImageToTool) :=
        GetVectorAttribute calibration "MatrixValue" 16 Uninitialized in
      match count with
      | O => (PLUS_FAIL, r)
      | S _ =>
          (PLUS_SUCCESS,
           {| Reconstructor := Reconstructor r;
              ImageToToolTransform := DeepCopy aImageToTool |})
      end
  end end end end.

Definition GetImageToToolTransform (r : vtkVolumeReconstructor)
  : vtkMatrix4x4 := ImageToToolTransform r.

(** [GetImageToReferenceTransformMatrix], lines 110-116: the overload that
    takes the tool-to-reference matrix. *)
Definition GetImageToReferenceTransformMatrix_FromMatrix
  (r : vtkVolumeReconstructor) (toolToReferenceTransformMatrix : vtkMatrix4x4)
  : vtkMatrix4x4 :=
  Multiply4x4 toolToReferenceTransformMatrix (ImageToToolTransform r).

(** [GetImageToReferenceTransformMatrix], lines 119-132: the overload that
    takes a tracked frame.  The last argument is the caller's output matrix,
    which a failure leaves as it was. *)
Definition GetImageToReferenceTransformMatrix
  (r : vtkVolumeReconstructor) (frame : TrackedFrame)
  (imageToReferenceTransformMatrix : vtkMatrix4x4)
  : PlusStatus * vtkMatrix4x4 :=
  match GetDefaultFrameTransform frame with
  | None => (PLUS_FAIL, imageToReferenceTransformMatrix)
  | Some defaultTransform =>
      let toolToReferenceTransformMatrix := DeepCopy defaultTransform in
      (PLUS_SUCCESS,
       GetImageToReferenceTransformMatrix_FromMatrix
         r toolToReferenceTransformMatrix)
  end.

(** The body of the loop over the axes, lines 159-168. *)
Definition ExpandAxis (corner_Ref : list double)
  (extent_Ref : list double) (axis : nat) : list double :=
  let extent_Ref :=
    if Double.ltb (load corner_Ref axis) (load extent_Ref (axis * 2))
    then store (axis * 2) (load corner_Ref axis) extent_Ref
    else extent_Ref in
  if Double.gtb (load corner_Ref axis) (load extent_Ref (axis * 2 + 1))
  then store (axis * 2 + 1) (load corner_Ref axis) extent_Ref
  else extent_Ref.

(** The four corner points of the image, lines 140-149. *)
Definition corners_ImagePix (image : vtkImageData) : list (list double) :=
  let frameExtent (i : nat) := Double.of_int (nth i (Extent image) 0%Z) in
  let c0 := [frameExtent 0%nat; frameExtent 2%nat; 0; 1] in
  let c1 := [frameExtent 0%nat; frameExtent 3%nat; 0; 1] in
  let c2 := [frameExtent 1%nat; frameExtent 2%nat; 0; 1] in
  let c3 := [frameExtent 1%nat; frameExtent 3%nat; 0; 1] in
  [c0; c1; c2; c3].

(** [AddImageToExtent(image, mImageToReference, extent_Ref)],
    lines 135-171. *)
Definition AddImageToExtent (image : vtkImageData)
  (mImageToReference : vtkMatrix4x4) (extent_Ref : list double)
  : list double :=
  fold_left
    (fun extent_Ref corner =>
       let corner_Ref := MultiplyPoint mImageToReference corner in
       fold_left (ExpandAxis corner_Ref) (seq 0 3) extent_Ref)
    (corners_ImagePix image) extent_Ref.

(** The first part of [SetOutputExtentFromFrameList], lines 176-201: the
    bounding box of the frames that have a pose. *)
Definition ExtentOfFrameList
  (r : vtkVolumeReconstructor) (trackedFrameList : list TrackedFrame)
  : list double :=
  fold_left
    (fun extent_Ref frame =>
       match GetImageToReferenceTransformMatrix r frame Identity with
       | (PLUS_FAIL, _) => extent_Ref
       | (PLUS_SUCCESS, imageToReferenceTransformMatrix) =>
           let frameImage := GetVtkImageNonFlipped frame in
           AddImageToExtent frameImage imageToReferenceTransformMatrix
                            extent_Ref
       end)
    trackedFrameList
    [VTK_DOUBLE_MAX; VTK_DOUBLE_MIN;
     VTK_DOUBLE_MAX; VTK_DOUBLE_MIN;
     VTK_DOUBLE_MAX; VTK_DOUBLE_MIN].

(** [int((hi - lo) / spacing)], lines 207-209: the difference, then the
    quotient, then the conversion. *)
Definition ExtentAlongAxis (lo hi spacing : double) : option Z :=
  match Double.sub hi lo with
  | None => None
  | Some width =>
      match Double.div width spacing with
      | None => None
      | Some q => Double.to_int q
      end
  end.

(** The last part of [SetOutputExtentFromFrameList], lines 213-228: the
    guarded call of [ResetOutput]. *)
Definition TryResetOutput (r : vtkVolumeReconstructor) (f : F)
  : PlusStatus * vtkVolumeReconstructor :=
  match Filter.ResetOutput f with
  | Filter.Returns PLUS_SUCCESS f' => (PLUS_SUCCESS, WithReconstructor r f')
  | Filter.Returns PLUS_FAIL f' => (PLUS_FAIL, WithReconstructor r f')
  | Filter.ThrowsBadAlloc f' => (PLUS_FAIL, WithReconstructor r f')
  end.

(** The output extent, lines 205-209: the lower bounds stay at zero, the
    upper bounds are the three conversions. *)
Definition OutputExtentOf (extent_Ref outputSpacing : list double)
  : option (list Z) :=
  match
    ExtentAlongAxis (load extent_Ref 0) (load extent_Ref 1)
                    (load outputSpacing 0),
    ExtentAlongAxis (load extent_Ref 2) (load extent_Ref 3)
                    (load outputSpacing 1),
    ExtentAlongAxis (load extent_Ref 4) (load extent_Ref 5)
                    (load outputSpacing 2)
  with
  | Some e1, Some e3, Some e5 => Some [0; e1; 0; e3; 0; e5]%Z
  | _, _, _ => None
  end.

(** [SetOutputExtentFromFrameList(trackedFrameList)], lines 174-229.  [None]
    is the case in which one of the three conversions to [int] has no
    defined value. *)
Definition SetOutputExtentFromFrameList
  (r : vtkVolumeReconstructor) (trackedFrameList : list TrackedFrame)
  : option (PlusStatus * vtkVolumeReconstructor) :=
  let extent_Ref := ExtentOfFrameList r trackedFrameList in
  let outputSpacing := Filter.GetOutputSpacing (Reconstructor r) in
  match OutputExtentOf extent_Ref outputSpacing with
  | None => None
  | Some outputExtent =>
      let f := Filter.SetOutputExtent outputExtent (Reconstructor r) in
      let f := Filter.SetOutputOrigin
                 (load extent_Ref 0) (load extent_Ref 2) (load extent_Ref 4)
                 f in
      Some (TryResetOutput r f)
  end.

(** [AddTrackedFrame(frame)], lines 232-244. *)
Definition AddTrackedFrame
  (r : vtkVolumeReconstructor) (frame : TrackedFrame)
  : PlusStatus * vtkVolumeReconstructor :=
  match GetImageToReferenceTransformMatrix r frame Identity with
  | (PLUS_FAIL, _) => (PLUS_FAIL, r)
  | (PLUS_SUCCESS, imageToReferenceTransformMatrix) =>
      let frameImage := GetVtkImageNonFlipped frame in
      let (status, f) :=
        Filter.InsertSlice frameImage imageToReferenceTransformMatrix
                           (Reconstructor r) in
      (status, WithReconstructor r f)
  end.

(** [GetReconstructedVolume(reconstructedVolume)], lines 247-257: the status
    and the new contents of [reconstructedVolume]. *)
Definition GetReconstructedVolume (r : vtkVolumeReconstructor)
  : PlusStatus * vtkImageData :=
  let extract :=
    vtkImageExtractComponents 0
      (Filter.GetReconstructedVolume (Reconstructor r)) in
  (PLUS_SUCCESS, extract).

End VolumeReconstructor.

Arguments vtkVolumeReconstructor F : clear implicits.

(** ** The test driver

    [Testing/vtkVolumeReconstructorTest1.cxx]: the part of [main] that works
    on the reconstructor, lines 57-128.  A [std::string] is a [string]; a
    file written by [TrackedFrame::WriteToFile] is an entry of a log; an
    exception that nothing catches ends the program, and the run has no
    result. *)

(** [s.find_last_of(c)] for a single character: the position of the last
    occurrence, [None] for [npos]. *)
Fixpoint find_last_of (s : string) (c : ascii) : option nat :=
  match s with
  | EmptyString => None
  | String a t =>
      match find_last_of t c with
      | Some i => Some (S i)
      | None => if Ascii.eqb a c then Some O else None
      end
  end.

(** [s.substr(0, found)]: the first [found] characters, or all of [s] when
    [found] is [npos]. *)
Definition substr_to (s : string) (found : option nat) : string :=
  match found with
  | None => s
  | Some n => substring 0 n s
  end.

(** [s.substr(found)]: the characters from [found] on; it throws
    [std::out_of_range] when [found] is beyond the end, as [npos] is. *)
Definition substr_from (s : string) (found : option nat) : option string :=
  match found with
  | None => None
  | Some n =>
      if (n <=? String.length s)%nat
      then Some (substring n (String.length s - n) s)
      else None
  end.

(** [ss.width(w); ss.fill(c); ss << n] for a non-negative [int]: the decimal
    digits, filled on the left up to the width. *)
Definition InsertInt (width : nat) (fill : ascii) (n : nat) : string :=
  let digits := NilEmpty.string_of_uint (Nat.to_uint n) in
  (string_of_list_ascii (repeat fill (width - String.length digits))
   ++ digits)%string.

(** The name of the file of one frame, lines 105-113: the frame index goes
    before the file extension. *)
Definition FrameFileName (outputFrameFileName : string) (frameIndex : nat)
  : option string :=
  let found := find_last_of outputFrameFileName "." in
  let stem := substr_to outputFrameFileName found in
  let number := InsertInt 3 "0" frameIndex in
  match substr_from outputFrameFileName found with
  | None => None
  | Some extension => Some (stem ++ number ++ extension)%string
  end.

(** What [frame->WriteToFile(name, matrix)] is called with. *)
Record WrittenFrame : Type := mkWritten {
  WrittenName : string;
  WrittenData : TrackedFrame;
  WrittenTransform : vtkMatrix4x4
}.

Section TestDriver.

Context {F : Type} {filter : Filter.Ops F}.
Variables VTK_DOUBLE_MAX VTK_DOUBLE_MIN : double.
Variable ProbeToolType : string.
Variable ParseDoubles : string -> list double.
Variable Uninitialized : list double.

(** One frame taken in, line 88: the status of [AddTrackedFrame] is not
    looked at. *)
Definition TakeIn (r : vtkVolumeReconstructor F) (frame : TrackedFrame)
  : vtkVolumeReconstructor F :=
  snd (AddTrackedFrame r frame).

(** The loop over the frames, lines 80-117, from the frame index
    [frameIndex] on: the reconstructor at the end and the files written, in
    order. *)
Fixpoint InsertFrames
  (r : vtkVolumeReconstructor F) (frames : list TrackedFrame)
  (frameIndex : nat) (outputFrameFileName : string)
  : option (vtkVolumeReconstructor F * list WrittenFrame) :=
  match frames with
  | [] => Some (r, [])
  | frame :: rest =>
      let r := TakeIn r frame in
      match outputFrameFileName with
      | EmptyString => InsertFrames r rest (S frameIndex) outputFrameFileName
      | String _ _ =>
          match GetImageToReferenceTransformMatrix r frame Identity with
          | (PLUS_FAIL, _) =>
              InsertFrames r rest (S frameIndex) outputFrameFileName
          | (PLUS_SUCCESS, imageToReferenceTransformMatrix) =>
              match FrameFileName outputFrameFileName frameIndex with
              | None => None
              | Some name =>
                  match
                    InsertFrames r rest (S frameIndex) outputFrameFileName
                  with
                  | None => None
                  | Some (r', written) =>
                      Some (r',
                            {| WrittenName := name;
                               WrittenData := frame;
                               WrittenTransform :=
                                 imageToReferenceTransformMatrix |}
                            :: written)
                  end
              end
          end
      end
  end.

(** Lines 57-128 of [main]: a new reconstructor (on the new filter [f])
    reads the configuration, sets the output extent from the frames, takes
    the frames in, and gives the volume to save.  No status is looked at.
    The result is the files of the frames and the volume. *)
Definition Reconstruct
  (f : F) (configRead : vtkXMLDataElement) (trackedFrameList : list TrackedFrame)
  (outputFrameFileName : string)
  : option (list WrittenFrame * vtkImageData) :=
  let reconstructor := New f in
  let reconstructor :=
    snd (ReadConfiguration ProbeToolType ParseDoubles Uninitialized
           reconstructor configRead) in
  match
    SetOutputExtentFromFrameList VTK_DOUBLE_MAX VTK_DOUBLE_MIN
      reconstructor trackedFrameList
  with
  | None => None
  | Some (_, reconstructor) =>
      match
        InsertFrames reconstructor trackedFrameList 0 outputFrameFileName
      with
      | None => None
      | Some (reconstructor, written) =>
          let reconstructedVolume :=
            snd (GetReconstructedVolume reconstructor) in
          Some (written, reconstructedVolume)
      end
  end.

End TestDriver.

(** Words for the statements about the driver. *)
Module DriverSpec.

Definition HasPose (frame : TrackedFrame) : bool :=
  match GetDefaultFrameTransform frame with
  | Some _ => true
  | None => false
  end.

(** The frames of a list that have a pose, each with its index in the list,
    the first frame having the index [first]. *)
Definition PosedFrames (first : nat) (frames : list TrackedFrame)
  : list (nat * TrackedFrame) :=
  filter (fun p => HasPose (snd p))
         (combine (seq first (List.length frames)) frames).

(** The file [w] is the export of the frame [frame] of index [i], under the
    calibration [imageToTool]. *)
Definition ExportOf (outputFrameFileName : string) (imageToTool : vtkMatrix4x4)
  (w : WrittenFrame) (p : nat * TrackedFrame) : Prop :=
  WrittenData w = snd p /\
  FrameFileName outputFrameFileName (fst p) = Some (WrittenName w) /\
  exists toolToReference,
    GetDefaultFrameTransform (snd p) = Some toolToReference /\
    WrittenTransform w = Multiply4x4 (DeepCopy toolToReference) imageToTool.

End DriverSpec.

(** ** The statements of the specification, as definitions *)

Module Spec.

(** The four pixel-space corners [(xmin,ymin)], [(xmin,ymax)],
    [(xmax,ymin)], [(xmax,ymax)] of an image, at [z = 0], as homogeneous
    points. *)
Definition ImageCorners (image : vtkImageData) : list (list double) :=
  let xmin := Double.of_int (nth 0 (Extent image) 0%Z) in
  let xmax := Double.of_int (nth 1 (Extent image) 0%Z) in
  let ymin := Double.of_int (nth 2 (Extent image) 0%Z) in
  let ymax := Double.of_int (nth 3 (Extent image) 0%Z) in
  [[xmin; ymin; 0; 1]; [xmin; ymax; 0; 1];
   [xmax; ymin; 0; 1]; [xmax; ymax; 0; 1]].

(** The corners of a frame in reference coordinates: none for a frame
    without a pose, otherwise the image corners sent through the frame's
    image-to-reference transform. *)
Definition ReferenceCorners (imageToTool : vtkMatrix4x4) (frame : TrackedFrame)
  : list (list double) :=
  match DefaultFrameTransform frame with
  | None => []
  | Some toolToReference =>
      map (MultiplyPoint (Multiply4x4 (DeepCopy toolToReference) imageToTool))
          (ImageCorners (ImageData frame))
  end.

(** A running minimum and a running maximum over a sequence of values. *)
Definition RunningMin (init : double) (values : list double) : double :=
  fold_left Double.min values init.

Definition RunningMax (init : double) (values : list double) : double :=
  fold_left Double.max values init.

Definition Coordinates (axis : nat) (points : list (list double))
  : list double :=
  map (fun p => load p axis) points.

(** A box [xmin xmax ymin ymax zmin zmax] widened by a sequence of points,
    axis by axis. *)
Definition ExpandBox (box : list double) (points : list (list double))
  : list double :=
  [RunningMin (load box 0) (Coordinates 0 points);
   RunningMax (load box 1) (Coordinates 0 points);
   RunningMin (load box 2) (Coordinates 1 points);
   RunningMax (load box 3) (Coordinates 1 points);
   RunningMin (load box 4) (Coordinates 2 points);
   RunningMax (load box 5) (Coordinates 2 points)].

(** The bounding box of a sequence of points, from the sentinels [lo] (for
    the minima) and [hi] (for the maxima). *)
Definition BoundingBox (lo hi : double) (points : list (list double))
  : list double :=
  ExpandBox [lo; hi; lo; hi; lo; hi] points.

(** A configuration tree lacks one of the elements the calibration is read
    from: [USDataCollection], its [Tracker], the tracker's [Tool] of the
    probe type, the tool's [Calibration], the calibration's [MatrixValue]
    attribute. *)
Inductive MissingElement (probeType : string) (config : vtkXMLDataElement)
  : Prop :=
| NoUSDataCollection :
    FindNestedElementWithName config "USDataCollection" = None ->
    MissingElement probeType config
| NoTracker dc :
    FindNestedElementWithName config "USDataCollection" = Some dc ->
    FindNestedElementWithName dc "Tracker" = None ->
    MissingElement probeType config
| NoProbeTool dc tracker :
    FindNestedElementWithName config "USDataCollection" = Some dc ->
    FindNestedElementWithName dc "Tracker" = Some tracker ->
    FindNestedElementWithNameAndAttribute tracker "Tool" "Type" probeType
      = None ->
    MissingElement probeType config
| NoCalibration dc tracker tool :
    FindNestedElementWithName config "USDataCollection" = Some dc ->
    FindNestedElementWithName dc "Tracker" = Some tracker ->
    FindNestedElementWithNameAndAttribute tracker "Tool" "Type" probeType
      = Some tool ->
    FindNestedElementWithName tool "Calibration" = None ->
    MissingElement probeType config
| NoMatrixValue dc tracker tool calibration :
    FindNestedElementWithName config "USDataCollection" = Some dc ->
    FindNestedElementWithName dc "Tracker" = Some tracker ->
    FindNestedElementWithNameAndAttribute tracker "Tool" "Type" probeType
      = Some tool ->
    FindNestedElementWithName tool "Calibration" = Some calibration ->
    GetAttribute calibration "MatrixValue" = None ->
    MissingElement probeType config.

(** A two-channel volume seen voxel by voxel: the scalars of the voxels
    [(intensity, mask)], in voxel order. *)
Definition Interleave (voxels : list (Z * Z)) : list Z :=
  flat_map (fun v => [fst v; snd v]) voxels.

End Spec.

(** ** A concrete environment

    The generic statements below hold for every filter and for every value
    of the VTK constants.  The concrete runs use the filter of this module
    and the values [vtkType.h] gives the two constants. *)
Module Lab.

(** [1.0e+299] and [-1.0e+299]: the doubles nearest to these decimals. *)
Definition VTK_DOUBLE_MAX : double := Double.round (Double.of_int (10 ^ 299)).
Definition VTK_DOUBLE_MIN : double := - VTK_DOUBLE_MAX.

Definition ProbeToolType : string := "Probe".

Definition IdentityMatrixValue : string := "1 0 0 0 0 1 0 0 0 0 1 0 0 0 0 1".
Definition ShortMatrixValue : string := "1 0 0".

(** A reader that knows two attribute values. *)
Definition ParseDoubles (str : string) : list double :=
  if String.eqb str IdentityMatrixValue then Identity
  else if String.eqb str ShortMatrixValue then [1; 0; 0]
  else [].

Definition Uninitialized : list double :=
  map Double.of_int (repeat 77%Z 16).

(** A filter that records what it is given.  Its [ResetOutput] allocates a
    zero-filled volume of two components per voxel and throws when the
    volume needs more than [Capacity] scalars; its [InsertSlice] counts the
    slices. *)
Record RecordingFilter : Type := mkFilter {
  OutputSpacing : list double;
  OutputExtent : list Z;
  OutputOrigin : list double;
  Volume : vtkImageData;
  InsertedSlices : nat
}.

Definition Capacity : Z := 4096.

Definition EmptyVolume : vtkImageData :=
  {| Extent := [0; -1; 0; -1; 0; -1]%Z; Spacing := [1; 1; 1];
     Origin := [0; 0; 0]; NumberOfScalarComponents := 2; Scalars := [] |}.

Definition Allocate (f : RecordingFilter) : Filter.ResetOutcome RecordingFilter :=
  let scalars := (2 * NumberOfPointsZ (OutputExtent f))%Z in
  if (scalars <=? Capacity)%Z then
    Filter.Returns PLUS_SUCCESS
      {| OutputSpacing := OutputSpacing f;
         OutputExtent := OutputExtent f;
         OutputOrigin := OutputOrigin f;
         Volume :=
           {| Extent := OutputExtent f; Spacing := OutputSpacing f;
              Origin := OutputOrigin f; NumberOfScalarComponents := 2;
              Scalars := repeat 0%Z (Z.to_nat scalars) |};
         InsertedSlices := 0 |}
  else Filter.ThrowsBadAlloc f.

#[export] Instance RecordingOps : Filter.Ops RecordingFilter := {|
  Filter.ReadConfiguration := fun _ f => (PLUS_SUCCESS, f);
  Filter.GetOutputSpacing := OutputSpacing;
  Filter.SetOutputExtent := fun e f =>
    {| OutputSpacing := OutputSpacing f; OutputExtent := e;
       OutputOrigin := OutputOrigin f; Volume := Volume f;
       InsertedSlices := InsertedSlices f |};
  Filter.SetOutputOrigin := fun x y z f =>
    {| OutputSpacing := OutputSpacing f; OutputExtent := OutputExtent f;
       OutputOrigin := [x; y; z]; Volume := Volume f;
       InsertedSlices := InsertedSlices f |};
  Filter.ResetOutput := Allocate;
  Filter.InsertSlice := fun _ _ f =>
    (PLUS_SUCCESS,
     {| OutputSpacing := OutputSpacing f; OutputExtent := OutputExtent f;
        OutputOrigin := OutputOrigin f; Volume := Volume f;
        InsertedSlices := S (InsertedSlices f) |});
  Filter.FillHolesInOutput := fun f => f;
  Filter.GetReconstructedVolume := Volume
|}.

Definition NewFilter (spacing : list double) : RecordingFilter :=
  {| OutputSpacing := spacing; OutputExtent := [0; 0; 0; 0; 0; 0]%Z;
     OutputOrigin := [0; 0; 0]; Volume := EmptyVolume; InsertedSlices := 0 |}.

(** A reconstructor with the identity calibration and unit spacing. *)
Definition UnitReconstructor : vtkVolumeReconstructor RecordingFilter :=
  New (NewFilter [1; 1; 1]).

(** An image of 11 by 21 pixels. *)
Definition Image11x21 : vtkImageData :=
  {| Extent := [0; 10; 0; 20; 0; 0]%Z; Spacing := [1; 1; 1];
     Origin := [0; 0; 0]; NumberOfScalarComponents := 1;
     Scalars := repeat 0%Z 231 |}.

(** Frames: one at the reference origin, one pushed 1000 along z, one
    without a pose. *)
Definition FrameAtOrigin : TrackedFrame :=
  {| DefaultFrameTransform := Some Identity; ImageData := Image11x21 |}.

Definition FrameFarAway : TrackedFrame :=
  {| DefaultFrameTransform :=
       Some [1; 0; 0; 0;
             0; 1; 0; 0;
             0; 0; 1; Double.of_int 1000;
             0; 0; 0; 1];
     ImageData := Image11x21 |}.

(** A pose that shifts by one along x, and a calibration that scales the
    image by two. *)
Definition ShiftX : vtkMatrix4x4 :=
  [1; 0; 0; 1;
   0; 1; 0; 0;
   0; 0; 1; 0;
   0; 0; 0; 1].

Definition Scale2 : vtkMatrix4x4 :=
  [Double.of_int 2; 0; 0; 0;
   0; Double.of_int 2; 0; 0;
   0; 0; Double.of_int 2; 0;
   0; 0; 0; 1].

Definition FrameShifted : TrackedFrame :=
  {| DefaultFrameTransform := Some ShiftX; ImageData := Image11x21 |}.

Definition ScalingReconstructor : vtkVolumeReconstructor RecordingFilter :=
  {| Reconstructor := NewFilter [1; 1; 1]; ImageToToolTransform := Scale2 |}.

Definition FrameWithoutPose : TrackedFrame :=
  {| DefaultFrameTransform := None; ImageData := Image11x21 |}.

(** A reconstructor whose spacing is as large as [VTK_DOUBLE_MAX]. *)
Definition CoarseReconstructor : vtkVolumeReconstructor RecordingFilter :=
  New (NewFilter [VTK_DOUBLE_MAX; VTK_DOUBLE_MAX; VTK_DOUBLE_MAX]).

(** A reconstruction volume of two voxels, with intensities 7 and 9 and
    masks 1 and 0, and a reconstructor that holds it. *)
Definition TwoVoxels : list (Z * Z) := [(7, 1); (9, 0)]%Z.

Definition TwoVoxelVolume : vtkImageData :=
  {| Extent := [0; 1; 0; 0; 0; 0]%Z; Spacing := [1; 1; 1];
     Origin := [0; 0; 0]; NumberOfScalarComponents := 2;
     Scalars := [7; 1; 9; 0]%Z |}.

Definition FilledReconstructor : vtkVolumeReconstructor RecordingFilter :=
  New {| OutputSpacing := [1; 1; 1]; OutputExtent := [0; 1; 0; 0; 0; 0]%Z;
         OutputOrigin := [0; 0; 0]; Volume := TwoVoxelVolume;
         InsertedSlices := 1 |}.

(** Configuration trees: a complete one, one whose [MatrixValue] has three
    numbers, and one without a [Tracker]. *)
Definition ConfigWithMatrix (matrixValue : string) : vtkXMLDataElement :=
  XMLElement "PlusConfiguration" []
    [XMLElement "USDataCollection" []
       [XMLElement "Tracker" []
          [XMLElement "Tool" [("Type"%string, "Stylus"%string)] [];
           XMLElement "Tool" [("Type"%string, "Probe"%string)]
             [XMLElement "Calibration" [("MatrixValue"%string, matrixValue)] []]]]].

Definition CompleteConfig : vtkXMLDataElement :=
  ConfigWithMatrix IdentityMatrixValue.

Definition ShortMatrixConfig : vtkXMLDataElement :=
  ConfigWithMatrix ShortMatrixValue.

Definition ConfigWithoutTracker : vtkXMLDataElement :=
  XMLElement "PlusConfiguration" []
    [XMLElement "USDataCollection" [] []].

End Lab.

(** More data for the concrete runs. *)
Module Lab2.

Import Lab.

Definition Box : list double := [0; 1; 0; 1; 0; 1].

Definition ThreeFrames : list TrackedFrame :=
  [FrameAtOrigin; FrameWithoutPose; FrameShifted].

(** The two voxels of [TwoVoxelVolume] with other masks. *)
Definition OtherMasks : list (Z * Z) := [(7, 0); (9, 1)]%Z.

Definition OtherMaskReconstructor : vtkVolumeReconstructor RecordingFilter :=
  New {| OutputSpacing := [1; 1; 1]; OutputExtent := [0; 1; 0; 0; 0; 0]%Z;
         OutputOrigin := [0; 0; 0];
         Volume :=
           {| Extent := [0; 1; 0; 0; 0; 0]%Z; Spacing := [1; 1; 1];
              Origin := [0; 0; 0]; NumberOfScalarComponents := 2;
              Scalars := [7; 0; 9; 1]%Z |};
         InsertedSlices := 2 |}.

(** The double written [0.1], and a reconstructor with that spacing. *)
Definition Tenth : double := Double.round (Q2Qc (1 # 10)).

Definition TenthReconstructor : vtkVolumeReconstructor RecordingFilter :=
  New (NewFilter [Tenth; Tenth; Tenth]).

(** A frame of 2 by 2 pixels at the reference origin: its corners span
    [0,1] x [0,1] x [0,0]. *)
Definition Image2x2 : vtkImageData :=
  {| Extent := [0; 1; 0; 1; 0; 0]%Z; Spacing := [1; 1; 1];
     Origin := [0; 0; 0]; NumberOfScalarComponents := 1;
     Scalars := repeat 0%Z 4 |}.

Definition SmallFrame : TrackedFrame :=
  {| DefaultFrameTransform := Some Identity; ImageData := Image2x2 |}.

(** A reconstructor whose spacing, the double written [4.0e+299], is more
    than the distance between the two sentinels. *)
Definition Huge : double := Double.round (Double.of_int (4 * 10 ^ 299)).

Definition VeryCoarseReconstructor : vtkVolumeReconstructor RecordingFilter :=
  New (NewFilter [Huge; Huge; Huge]).

End Lab2.

(** * Properties *)

(** ** Order facts on doubles *)

Module DoubleFacts.

Lemma ltb_lt (a b : double) : Double.ltb a b = true <-> a < b.
Proof.
  unfold Double.ltb. rewrite Qclt_alt.
  destruct (a ?= b); split; congruence.
Qed.

Lemma ltb_ge (a b : double) : Double.ltb a b = false <-> b <= a.
Proof.
  split; intros Hab.
  - apply Qcnot_lt_le. rewrite <- ltb_lt. congruence.
  - destruct (Double.ltb a b) eqn:E; [| reflexivity].
    apply ltb_lt in E. now apply Qcle_not_lt in Hab.
Qed.

Ltac order :=
  repeat match goal with
    | H : Double.ltb _ _ = true |- _ => apply ltb_lt in H
    | H : Double.ltb _ _ = false |- _ => apply ltb_ge in H
    end;
  try apply Qc_is_canon;
  unfold Qclt, Qcle in *; lra.

Ltac split_ltb :=
  repeat match goal with
    | H : Double.ltb ?x ?y = _ |- context [Double.ltb ?x ?y] => rewrite H
    | |- context [Double.ltb ?x ?y] =>
        is_var x; is_var y; destruct (Double.ltb x y) eqn:?
    end.

Lemma min_le_l a b : Double.min a b <= a.
Proof. unfold Double.min. split_ltb; order. Qed.

Lemma min_le_r a b : Double.min a b <= b.
Proof. unfold Double.min. split_ltb; order. Qed.

Lemma max_ge_l a b : a <= Double.max a b.
Proof. unfold Double.max. split_ltb; order. Qed.

Lemma max_ge_r a b : b <= Double.max a b.
Proof. unfold Double.max. split_ltb; order. Qed.

Lemma min_right_comm a b c :
  Double.min (Double.min a b) c = Double.min (Double.min a c) b.
Proof. unfold Double.min. split_ltb; try reflexivity; order. Qed.

Lemma max_right_comm a b c :
  Double.max (Double.max a b) c = Double.max (Double.max a c) b.
Proof. unfold Double.max. split_ltb; try reflexivity; order. Qed.

Lemma zero_le_num (x : double) : 0 <= x <-> (0 <= Qnum x)%Z.
Proof.
  unfold Qcle, Qle. cbn. rewrite Z.mul_1_r. reflexivity.
Qed.

(** On a non-negative double, truncation toward zero is the floor. *)
Lemma trunc_nonneg (x : double) : 0 <= x -> Double.trunc x = Double.floor x.
Proof.
  intros Hx. apply zero_le_num in Hx.
  unfold Double.trunc, Double.floor, Qfloor.
  destruct x as [[n d] Hc]; cbn in *.
  apply Z.quot_div_nonneg; lia.
Qed.

Lemma floor_nonneg (x : double) : 0 <= x -> (0 <= Double.floor x)%Z.
Proof.
  intros Hx. apply zero_le_num in Hx.
  unfold Double.floor, Qfloor.
  destruct x as [[n d] Hc]; cbn in *.
  apply Z.div_pos; lia.
Qed.

Lemma to_int_nonneg (x : double) :
  0 <= x -> (Double.floor x <= Double.INT_MAX)%Z ->
  Double.to_int x = Some (Double.floor x).
Proof.
  intros Hx Hmax. unfold Double.to_int.
  rewrite (trunc_nonneg x Hx).
  assert (H0 := floor_nonneg x Hx).
  replace (Double.INT_MIN <=? Double.floor x)%Z with true
    by (symmetry; apply Z.leb_le; unfold Double.INT_MIN; lia).
  replace (Double.floor x <=? Double.INT_MAX)%Z with true
    by (symmetry; now apply Z.leb_le).
  reflexivity.
Qed.

Lemma inv_nonneg (x : double) : 0 < x -> 0 <= / x.
Proof.
  unfold Qclt, Qcle, Qcinv, Q2Qc. cbn [this]. intros Hx.
  rewrite !Qred_correct in *. apply Qinv_le_0_compat.
  apply Qlt_le_weak. exact Hx.
Qed.

(** *** Rounding *)

Lemma lt_floor_succ (x : double) : x < Double.of_int (Double.floor x + 1).
Proof.
  unfold Qclt, Double.of_int, Double.floor, Q2Qc. cbn [this].
  rewrite Qred_correct. apply Qlt_floor.
Qed.

Lemma of_int_le (a b : Z) : (a <= b)%Z -> Double.of_int a <= Double.of_int b.
Proof.
  intros H. unfold Qcle, Double.of_int, Q2Qc. cbn [this].
  rewrite !Qred_correct. now rewrite <- Zle_Qle.
Qed.

Lemma of_int_nonneg (z : Z) : (0 <= z)%Z -> 0 <= Double.of_int z.
Proof. intros H. exact (of_int_le 0 z H). Qed.

Lemma pow2_pos (e : Z) : 0 < Double.pow2 e.
Proof.
  unfold Double.pow2, Double.of_int, Qclt, Q2Qc.
  destruct e as [|p|p]; cbn [this]; rewrite !Qred_correct.
  - reflexivity.
  - change 0%Q with (inject_Z 0). rewrite <- Zlt_Qlt.
    apply Z.pow_pos_nonneg; lia.
  - reflexivity.
Qed.

Lemma nearest_even_nonneg (a b : Z) :
  (0 <= a)%Z -> (0 < b)%Z -> (0 <= Double.nearest_even a b)%Z.
Proof.
  intros Ha Hb. unfold Double.nearest_even.
  assert (0 <= a / b)%Z by (apply Z.div_pos; lia).
  destruct (2 * (a mod b) ?= b)%Z; [destruct (Z.even (a / b)) | |]; lia.
Qed.

Lemma round_pos_nonneg (n d : positive) : 0 <= Double.round_pos n d.
Proof.
  unfold Double.round_pos.
  rewrite <- (Qcmult_0_l (Double.pow2 (Double.ulp_exponent n d))).
  apply Qcmult_le_compat_r.
  - apply of_int_nonneg, nearest_even_nonneg.
    + apply Z.mul_nonneg_nonneg; [lia | apply Z.pow_nonneg; lia].
    + apply Z.mul_pos_pos; [lia | apply Z.pow_pos_nonneg; lia].
  - apply Qclt_le_weak, pow2_pos.
Qed.

(** Rounding keeps the sign. *)
Lemma round_nonneg (x : double) : 0 <= x -> 0 <= Double.round x.
Proof.
  intros Hx. apply zero_le_num in Hx. unfold Double.round.
  destruct (Qnum x) as [|n|n]; [order | apply round_pos_nonneg | lia].
Qed.

Lemma round_nonpos (x : double) : x <= 0 -> Double.round x <= 0.
Proof.
  intros Hx. unfold Double.round.
  destruct (Qnum x) as [|n|n] eqn:E.
  - order.
  - exfalso. unfold Qcle, Qle in Hx. cbn in Hx. lia.
  - pose proof (round_pos_nonneg n (Qden x)) as H.
    clear Hx E. revert H.
    generalize (Double.round_pos n (Qden x)). intros y Hy.
    unfold Qcle, Qcopp, Q2Qc in *. cbn [this] in *.
    rewrite !Qred_correct in *. lra.
Qed.

Lemma int_max_is_finite : Double.of_int (Double.INT_MAX + 1) <= Double.DBL_MAX.
Proof. apply of_int_le. vm_compute. discriminate. Qed.

Lemma DBL_MAX_pos : 0 < Double.DBL_MAX.
Proof. reflexivity. Qed.

(** An operation whose rounded result is not negative and fits an [int] does
    not overflow. *)
Lemma rounded_in_range (x : double) :
  0 <= Double.round x -> Double.round x <= Double.DBL_MAX ->
  Double.rounded x = Some (Double.round x).
Proof.
  intros H0 Hmax. unfold Double.rounded. cbv zeta.
  replace (Double.ltb Double.DBL_MAX (Double.round x)) with false
    by (symmetry; now apply ltb_ge).
  replace (Double.ltb (Double.round x) (- Double.DBL_MAX)) with false;
    [reflexivity |].
  symmetry. apply ltb_ge.
  pose proof DBL_MAX_pos as Hp. clear Hmax. revert Hp H0.
  generalize Double.DBL_MAX (Double.round x). intros m y Hp Hy.
  unfold Qcle, Qclt, Qcopp, Q2Qc in *. cbn [this] in *.
  rewrite !Qred_correct in *. lra.
Qed.

Lemma rounded_value (x y : double) :
  Double.rounded x = Some y -> y = Double.round x.
Proof.
  unfold Double.rounded. cbv zeta.
  destruct (_ || _); [discriminate | congruence].
Qed.

Lemma small_is_finite (x : double) :
  (Double.floor x <= Double.INT_MAX)%Z -> x <= Double.DBL_MAX.
Proof.
  intros H. apply Qclt_le_weak.
  apply Qclt_le_trans with (Double.of_int (Double.floor x + 1)).
  - apply lt_floor_succ.
  - apply Qcle_trans with (Double.of_int (Double.INT_MAX + 1)).
    + apply of_int_le. lia.
    + apply int_max_is_finite.
Qed.

Lemma div_pos (a b : double) :
  0 < b -> Double.div a b = Double.rounded (a / b).
Proof.
  intros Hb. unfold Double.div.
  destruct (Qc_eq_dec b 0) as [E | _]; [| reflexivity].
  subst b. now apply Qclt_not_eq in Hb.
Qed.

Lemma ratio_nonneg (a b : double) : 0 <= a -> 0 < b -> 0 <= a / b.
Proof.
  intros Ha Hb. unfold Qcdiv.
  rewrite <- (Qcmult_0_l (/ b)).
  apply Qcmult_le_compat_r; [exact Ha | now apply inv_nonneg].
Qed.

Lemma ratio_nonpos (a b : double) : a <= 0 -> 0 < b -> a / b <= 0.
Proof.
  intros Ha Hb. unfold Qcdiv.
  rewrite <- (Qcmult_0_l (/ b)).
  apply Qcmult_le_compat_r; [exact Ha | now apply inv_nonneg].
Qed.

Lemma trunc_nonpos (x : double) : x <= 0 -> (Double.trunc x <= 0)%Z.
Proof.
  intros Hx. unfold Double.trunc.
  assert (Qnum x <= 0)%Z by (unfold Qcle, Qle in Hx; cbn in Hx; lia).
  rewrite <- (Z.opp_involutive (Qnum x)).
  rewrite Z.quot_opp_l by lia.
  assert (0 <= Z.quot (- Qnum x) (Z.pos (Qden x)))%Z
    by (apply Z.quot_pos; lia).
  lia.
Qed.

End DoubleFacts.

(** ** Matrices *)

Section MatrixFacts.

Lemma Multiply4x4_length (a b : vtkMatrix4x4) :
  List.length (Multiply4x4 a b) = 16%nat.
Proof. reflexivity. Qed.

Lemma GetElement_Multiply4x4 (a b : vtkMatrix4x4) (i j : nat) :
  (i < 4)%nat -> (j < 4)%nat ->
  GetElement (Multiply4x4 a b) i j =
    GetElement a i 0 * GetElement b 0 j +
    GetElement a i 1 * GetElement b 1 j +
    GetElement a i 2 * GetElement b 2 j +
    GetElement a i 3 * GetElement b 3 j.
Proof.
  intros Hi Hj.
  destruct i as [|[|[|[|i]]]]; try lia;
    destruct j as [|[|[|[|j]]]]; try lia; reflexivity.
Qed.

Lemma GetElement_DeepCopy (elements : list double) (i j : nat) :
  (i < 4)%nat -> (j < 4)%nat ->
  GetElement (DeepCopy elements) i j = GetElement elements i j.
Proof.
  intros Hi Hj.
  destruct i as [|[|[|[|i]]]]; try lia;
    destruct j as [|[|[|[|j]]]]; try lia; reflexivity.
Qed.

(** The product acts on a point as its right factor followed by its left
    factor. *)
Lemma MultiplyPoint_Multiply4x4 (a b : vtkMatrix4x4) (p : list double) :
  MultiplyPoint (Multiply4x4 a b) p = MultiplyPoint a (MultiplyPoint b p).
Proof.
  unfold MultiplyPoint, Multiply4x4, GetElement, load; cbn.
  unfold double in *.
  f_equal; [ring | f_equal; [ring | f_equal; [ring | f_equal; ring]]].
Qed.

Lemma MultiplyPoint_DeepCopy (elements : list double) (p : list double) :
  MultiplyPoint (DeepCopy elements) p = MultiplyPoint elements p.
Proof. reflexivity. Qed.

Lemma load_DeepCopy (elements : list double) (i : nat) :
  (i < 16)%nat -> load (DeepCopy elements) i = load elements i.
Proof.
  intros Hi. unfold DeepCopy.
  do 16 (destruct i as [|i]; [reflexivity |]). lia.
Qed.

Lemma nth_skipn_add {A : Type} (n k : nat) (l : list A) (d : A) :
  nth k (skipn n l) d = nth (n + k) l d.
Proof.
  revert l. induction n as [|n IH]; intros l; [reflexivity |].
  destruct l as [|a l]; [now destruct k | apply IH].
Qed.

(** An array of which the first elements were overwritten. *)
Lemma load_overwritten (values data : list double) (i : nat) :
  load (values ++ skipn (List.length values) data) i
  = if (i <? List.length values)%nat then load values i else load data i.
Proof.
  unfold load. destruct (i <? List.length values)%nat eqn:E.
  - apply Nat.ltb_lt in E. now apply app_nth1.
  - apply Nat.ltb_ge in E. rewrite app_nth2 by assumption.
    rewrite nth_skipn_add. f_equal. lia.
Qed.

End MatrixFacts.

(** ** Running minima and maxima *)

Section BoxFacts.

Import DoubleFacts Spec.

Lemma RunningMin_le_init (init : double) (values : list double) :
  RunningMin init values <= init.
Proof.
  revert init. induction values as [|x xs IH]; intros init; cbn.
  - apply Qcle_refl.
  - eapply Qcle_trans; [apply IH | apply min_le_l].
Qed.

Lemma RunningMin_le_value (init : double) (values : list double) (x : double) :
  In x values -> RunningMin init values <= x.
Proof.
  revert init. induction values as [|y ys IH]; intros init Hx;
    [contradiction | destruct Hx as [Hx | Hx]]; cbn.
  - subst y. eapply Qcle_trans; [apply RunningMin_le_init | apply min_le_r].
  - now apply IH.
Qed.

Lemma RunningMin_in (init : double) (values : list double) :
  In (RunningMin init values) (init :: values).
Proof.
  revert init. induction values as [|y ys IH]; intros init; cbn.
  - now left.
  - destruct (IH (Double.min init y)) as [H | H].
    + unfold RunningMin in H. cbn in H. rewrite <- H.
      unfold Double.min. destruct (Double.ltb y init); auto.
    + auto.
Qed.

Lemma RunningMax_ge_init (init : double) (values : list double) :
  init <= RunningMax init values.
Proof.
  revert init. induction values as [|x xs IH]; intros init; cbn.
  - apply Qcle_refl.
  - eapply Qcle_trans; [apply max_ge_l | apply IH].
Qed.

Lemma RunningMax_ge_value (init : double) (values : list double) (x : double) :
  In x values -> x <= RunningMax init values.
Proof.
  revert init. induction values as [|y ys IH]; intros init Hx;
    [contradiction | destruct Hx as [Hx | Hx]]; cbn.
  - subst y. eapply Qcle_trans; [apply max_ge_r | apply RunningMax_ge_init].
  - now apply IH.
Qed.

Lemma RunningMax_in (init : double) (values : list double) :
  In (RunningMax init values) (init :: values).
Proof.
  revert init. induction values as [|y ys IH]; intros init; cbn.
  - now left.
  - destruct (IH (Double.max init y)) as [H | H].
    + unfold RunningMax in H. cbn in H. rewrite <- H.
      unfold Double.max. destruct (Double.ltb init y); auto.
    + auto.
Qed.

Lemma running_ordered (lo hi : double) (values : list double) (x : double) :
  In x values -> RunningMin lo values <= RunningMax hi values.
Proof.
  intros Hx. eapply Qcle_trans.
  - apply RunningMin_le_value. exact Hx.
  - apply RunningMax_ge_value. exact Hx.
Qed.

(** A left fold whose steps commute does not depend on the order of the
    list. *)
Lemma fold_left_Permutation {A B : Type} (f : A -> B -> A) :
  (forall a x y, f (f a x) y = f (f a y) x) ->
  forall l l', Permutation l l' ->
  forall a, fold_left f l a = fold_left f l' a.
Proof.
  intros Hcomm l l' Hperm.
  induction Hperm as [| x l l' _ IH | x y l | l l' l'' _ IH1 _ IH2];
    intros a; cbn.
  - reflexivity.
  - apply IH.
  - now rewrite Hcomm.
  - now rewrite IH1.
Qed.

Lemma RunningMin_Permutation (init : double) (l l' : list double) :
  Permutation l l' -> RunningMin init l = RunningMin init l'.
Proof.
  intros H. unfold RunningMin.
  apply fold_left_Permutation; [apply min_right_comm | exact H].
Qed.

Lemma RunningMax_Permutation (init : double) (l l' : list double) :
  Permutation l l' -> RunningMax init l = RunningMax init l'.
Proof.
  intros H. unfold RunningMax.
  apply fold_left_Permutation; [apply max_right_comm | exact H].
Qed.

Lemma ExpandBox_length (box : list double) (points : list (list double)) :
  List.length (ExpandBox box points) = 6%nat.
Proof. reflexivity. Qed.

Lemma ExpandBox_nil (box : list double) :
  List.length box = 6%nat -> ExpandBox box [] = box.
Proof.
  destruct box as [|a0 [|a1 [|a2 [|a3 [|a4 [|a5 [|a6 box]]]]]]];
    try discriminate; reflexivity.
Qed.

Lemma ExpandBox_app (box : list double) (l1 l2 : list (list double)) :
  ExpandBox box (l1 ++ l2) = ExpandBox (ExpandBox box l1) l2.
Proof.
  unfold ExpandBox, Coordinates, RunningMin, RunningMax, load; cbn.
  now rewrite !map_app, !fold_left_app.
Qed.

Lemma ExpandBox_cons (box : list double) (p : list double)
  (points : list (list double)) :
  ExpandBox box (p :: points) = ExpandBox (ExpandBox box [p]) points.
Proof. exact (ExpandBox_app box [p] points). Qed.

Lemma fold_left_cons {A B : Type} (f : A -> B -> A) (x : B) (l : list B)
  (a : A) :
  fold_left f (x :: l) a = fold_left f l (f a x).
Proof. reflexivity. Qed.

Lemma ExpandBox_Permutation (box : list double) (l l' : list (list double)) :
  Permutation l l' -> ExpandBox box l = ExpandBox box l'.
Proof.
  intros H. unfold ExpandBox, Coordinates.
  repeat match goal with
    | |- context [map ?f l] =>
        let Hp := fresh in
        assert (Hp := Permutation_map f H);
        first [ rewrite (RunningMin_Permutation _ _ _ Hp)
              | rewrite (RunningMax_Permutation _ _ _ Hp) ];
        clear Hp
    end.
  reflexivity.
Qed.

(** The loop over the axes widens each axis of a six-element box by the
    coordinate of the point on that axis. *)
Lemma ExpandAxes_spec (p : list double) (a0 a1 a2 a3 a4 a5 : double) :
  fold_left (ExpandAxis p) (seq 0 3) [a0; a1; a2; a3; a4; a5] =
    ExpandBox [a0; a1; a2; a3; a4; a5] [p].
Proof.
  unfold ExpandBox, Coordinates, RunningMin, RunningMax, ExpandAxis.
  unfold Double.gtb, Double.min, Double.max.
  cbn -[Double.ltb].
  generalize (load p 0) (load p 1) (load p 2). intros p0 p1 p2.
  repeat (match goal with
          | |- context [Double.ltb ?x ?y] =>
              is_var x; is_var y; destruct (Double.ltb x y) eqn:?
          end; cbn -[Double.ltb]);
    reflexivity.
Qed.

End BoxFacts.

(** ** The class *)

Section Properties.

Import DoubleFacts Spec.

Context {F : Type} {filter : Filter.Ops F}.
Variables VTK_DOUBLE_MAX VTK_DOUBLE_MIN : double.
Variable ProbeToolType : string.
Variable ParseDoubles : string -> list double.
Variable Uninitialized : list double.

Implicit Types (r : vtkVolumeReconstructor F) (frame : TrackedFrame).

(** C1.  For a frame with a valid pose, the frame overload of
    [GetImageToReferenceTransformMatrix] succeeds and returns the product
    ToolToReference * ImageToTool, with the pose as the left factor and the
    calibration as the right factor: element [(i,j)] is the sum over [k] of
    [ToolToReference(i,k) * ImageToTool(k,j)], so that on a point the
    calibration is applied first and the tracking pose second. *)
Theorem image_to_reference_is_pose_times_calibration
  r frame (toolToReference out : vtkMatrix4x4) :
  GetDefaultFrameTransform frame = Some toolToReference ->
  exists imageToReference,
    GetImageToReferenceTransformMatrix r frame out
      = (PLUS_SUCCESS, imageToReference) /\
    imageToReference
      = GetImageToReferenceTransformMatrix_FromMatrix
          r (DeepCopy toolToReference) /\
    List.length imageToReference = 16%nat /\
    (forall i j, (i < 4)%nat -> (j < 4)%nat ->
       GetElement imageToReference i j =
         GetElement toolToReference i 0 * GetElement (ImageToToolTransform r) 0 j +
         GetElement toolToReference i 1 * GetElement (ImageToToolTransform r) 1 j +
         GetElement toolToReference i 2 * GetElement (ImageToToolTransform r) 2 j +
         GetElement toolToReference i 3 * GetElement (ImageToToolTransform r) 3 j) /\
    (forall p,
       MultiplyPoint imageToReference p =
         MultiplyPoint toolToReference
           (MultiplyPoint (ImageToToolTransform r) p)).
Proof.
  intros Hpose.
  unfold GetImageToReferenceTransformMatrix. rewrite Hpose.
  eexists. split; [reflexivity |]. split; [reflexivity |].
  unfold GetImageToReferenceTransformMatrix_FromMatrix.
  split; [apply Multiply4x4_length |]. split.
  - intros i j Hi Hj.
    rewrite GetElement_Multiply4x4 by assumption.
    now rewrite !GetElement_DeepCopy by lia.
  - intros p. now rewrite MultiplyPoint_Multiply4x4, MultiplyPoint_DeepCopy.
Qed.

(** *** The bounding box *)

Lemma corners_ImagePix_spec (image : vtkImageData) :
  corners_ImagePix image = Spec.ImageCorners image.
Proof. reflexivity. Qed.

Lemma expand_corners (m : vtkMatrix4x4) (corners : list (list double)) :
  forall extent_Ref, List.length extent_Ref = 6%nat ->
  fold_left
    (fun extent_Ref corner =>
       fold_left (ExpandAxis (MultiplyPoint m corner)) (seq 0 3) extent_Ref)
    corners extent_Ref
  = Spec.ExpandBox extent_Ref (map (MultiplyPoint m) corners).
Proof.
  induction corners as [|c cs IH]; intros e He.
  - cbn [fold_left map]. now rewrite ExpandBox_nil.
  - rewrite fold_left_cons, map_cons, ExpandBox_cons.
    destruct e as [|a0 [|a1 [|a2 [|a3 [|a4 [|a5 [|a6 e]]]]]]];
      try discriminate.
    rewrite ExpandAxes_spec. apply IH. apply ExpandBox_length.
Qed.

Lemma AddImageToExtent_spec
  (image : vtkImageData) (m : vtkMatrix4x4) (extent_Ref : list double) :
  List.length extent_Ref = 6%nat ->
  AddImageToExtent image m extent_Ref
  = Spec.ExpandBox extent_Ref (map (MultiplyPoint m) (Spec.ImageCorners image)).
Proof.
  intros He. unfold AddImageToExtent.
  rewrite corners_ImagePix_spec. now apply expand_corners.
Qed.

(** One turn of the loop over the frames. *)
Lemma frame_step_spec r frame (extent_Ref : list double) :
  List.length extent_Ref = 6%nat ->
  match GetImageToReferenceTransformMatrix r frame Identity with
  | (PLUS_FAIL, _) => extent_Ref
  | (PLUS_SUCCESS, m) =>
      AddImageToExtent (GetVtkImageNonFlipped frame) m extent_Ref
  end
  = Spec.ExpandBox extent_Ref
      (Spec.ReferenceCorners (ImageToToolTransform r) frame).
Proof.
  intros He.
  unfold GetImageToReferenceTransformMatrix, Spec.ReferenceCorners,
    GetDefaultFrameTransform, GetVtkImageNonFlipped,
    GetImageToReferenceTransformMatrix_FromMatrix.
  destruct (DefaultFrameTransform frame) as [pose|].
  - now apply AddImageToExtent_spec.
  - now rewrite ExpandBox_nil.
Qed.

Lemma frame_loop_spec r (frames : list TrackedFrame) :
  forall extent_Ref, List.length extent_Ref = 6%nat ->
  fold_left
    (fun extent_Ref frame =>
       match GetImageToReferenceTransformMatrix r frame Identity with
       | (PLUS_FAIL, _) => extent_Ref
       | (PLUS_SUCCESS, m) =>
           AddImageToExtent (GetVtkImageNonFlipped frame) m extent_Ref
       end)
    frames extent_Ref
  = Spec.ExpandBox extent_Ref
      (flat_map (Spec.ReferenceCorners (ImageToToolTransform r)) frames).
Proof.
  induction frames as [|frame frames IH]; intros e He.
  - cbn [fold_left flat_map]. now rewrite ExpandBox_nil.
  - cbn [fold_left flat_map].
    rewrite ExpandBox_app, frame_step_spec by assumption.
    apply IH. apply ExpandBox_length.
Qed.

(** The bounding box of the loop over the frames, as a fold over the
    reference-space corners of the frames that have a pose. *)
Lemma ExtentOfFrameList_spec r (frames : list TrackedFrame) :
  ExtentOfFrameList VTK_DOUBLE_MAX VTK_DOUBLE_MIN r frames
  = Spec.BoundingBox VTK_DOUBLE_MAX VTK_DOUBLE_MIN
      (flat_map (Spec.ReferenceCorners (ImageToToolTransform r)) frames).
Proof.
  unfold ExtentOfFrameList, Spec.BoundingBox.
  now apply frame_loop_spec.
Qed.

(** C5.  The bounding box that extent estimation accumulates is the running
    per-axis minimum and maximum, started from the sentinels
    [VTK_DOUBLE_MAX] (minima) and [VTK_DOUBLE_MIN] (maxima), over the
    reference-space images of the four corners [(xmin,ymin)],
    [(xmin,ymax)], [(xmax,ymin)], [(xmax,ymax)] at [z = 0] of every frame
    that has a pose, each corner sent through that frame's
    image-to-reference transform.  Hence before any frame the box is the
    sentinels; afterwards every such corner lies, on every axis, between
    the minimum and the maximum of the box; and each minimum (maximum) of
    the box is its sentinel or a coordinate of one of these corners. *)
Theorem extent_is_running_min_max_of_corners r (frames : list TrackedFrame) :
  let corners :=
    flat_map (Spec.ReferenceCorners (ImageToToolTransform r)) frames in
  let extent_Ref := ExtentOfFrameList VTK_DOUBLE_MAX VTK_DOUBLE_MIN r frames in
  extent_Ref = Spec.BoundingBox VTK_DOUBLE_MAX VTK_DOUBLE_MIN corners /\
  ExtentOfFrameList VTK_DOUBLE_MAX VTK_DOUBLE_MIN r []
    = [VTK_DOUBLE_MAX; VTK_DOUBLE_MIN;
       VTK_DOUBLE_MAX; VTK_DOUBLE_MIN;
       VTK_DOUBLE_MAX; VTK_DOUBLE_MIN] /\
  (forall corner axis, In corner corners -> (axis < 3)%nat ->
     load extent_Ref (axis * 2) <= load corner axis /\
     load corner axis <= load extent_Ref (axis * 2 + 1)) /\
  (forall axis, (axis < 3)%nat ->
     In (load extent_Ref (axis * 2))
        (VTK_DOUBLE_MAX :: Spec.Coordinates axis corners) /\
     In (load extent_Ref (axis * 2 + 1))
        (VTK_DOUBLE_MIN :: Spec.Coordinates axis corners)).
Proof.
  intros corners extent_Ref. subst extent_Ref.
  rewrite ExtentOfFrameList_spec. fold corners.
  split; [reflexivity |]. split; [reflexivity |]. split.
  - intros corner axis Hin Haxis.
    destruct axis as [|[|[|axis]]]; try lia;
      (split; [apply RunningMin_le_value | apply RunningMax_ge_value]);
      unfold Coordinates;
      match goal with
      | |- In (load corner ?k) _ =>
          exact (in_map (fun p => load p k) corners corner Hin)
      end.
  - intros axis Haxis.
    destruct axis as [|[|[|axis]]]; try lia;
      (split; [apply RunningMin_in | apply RunningMax_in]).
Qed.

(** C9.  [AddImageToExtent] only widens a six-element box: on every axis the
    new minimum is at most the old one and the new maximum at least the old
    one. *)
Theorem AddImageToExtent_widens
  (image : vtkImageData) (m : vtkMatrix4x4) (extent_Ref : list double)
  (axis : nat) :
  List.length extent_Ref = 6%nat ->
  (axis < 3)%nat ->
  load (AddImageToExtent image m extent_Ref) (axis * 2)
    <= load extent_Ref (axis * 2) /\
  load extent_Ref (axis * 2 + 1)
    <= load (AddImageToExtent image m extent_Ref) (axis * 2 + 1).
Proof.
  intros He Haxis. rewrite AddImageToExtent_spec by assumption.
  destruct axis as [|[|[|axis]]]; try lia;
    (split; [apply RunningMin_le_init | apply RunningMax_ge_init]).
Qed.

(** C8.  Extent estimation does not depend on the order of the frames: for
    a reordering of the frame list the bounding box is the same, and so are
    the extent and the origin handed to the filter and the outcome of
    [SetOutputExtentFromFrameList]. *)
Theorem extent_estimation_is_order_insensitive
  r (frames frames' : list TrackedFrame) :
  Permutation frames frames' ->
  ExtentOfFrameList VTK_DOUBLE_MAX VTK_DOUBLE_MIN r frames
    = ExtentOfFrameList VTK_DOUBLE_MAX VTK_DOUBLE_MIN r frames' /\
  SetOutputExtentFromFrameList VTK_DOUBLE_MAX VTK_DOUBLE_MIN r frames
    = SetOutputExtentFromFrameList VTK_DOUBLE_MAX VTK_DOUBLE_MIN r frames'.
Proof.
  intros Hperm.
  assert (Hbox :
    ExtentOfFrameList VTK_DOUBLE_MAX VTK_DOUBLE_MIN r frames
    = ExtentOfFrameList VTK_DOUBLE_MAX VTK_DOUBLE_MIN r frames').
  { rewrite !ExtentOfFrameList_spec.
    apply ExpandBox_Permutation.
    now apply Permutation_flat_map. }
  split; [exact Hbox |].
  unfold SetOutputExtentFromFrameList. now rewrite Hbox.
Qed.

(** C4.  A frame without a valid pose: resolving its transform fails and
    leaves the caller's matrix alone; [AddTrackedFrame] fails and leaves the
    whole object, the filter and its volume included, as it was, whatever
    [InsertSlice] would have done; and in extent estimation the frame
    contributes nothing, while the frames before and after it are processed
    as if it were not in the list. *)
Theorem frame_without_pose_is_skipped
  r frame (out : vtkMatrix4x4) (before after : list TrackedFrame) :
  GetDefaultFrameTransform frame = None ->
  GetImageToReferenceTransformMatrix r frame out = (PLUS_FAIL, out) /\
  AddTrackedFrame r frame = (PLUS_FAIL, r) /\
  ExtentOfFrameList VTK_DOUBLE_MAX VTK_DOUBLE_MIN r (before ++ frame :: after)
    = ExtentOfFrameList VTK_DOUBLE_MAX VTK_DOUBLE_MIN r (before ++ after) /\
  SetOutputExtentFromFrameList VTK_DOUBLE_MAX VTK_DOUBLE_MIN r
      (before ++ frame :: after)
    = SetOutputExtentFromFrameList VTK_DOUBLE_MAX VTK_DOUBLE_MIN r
        (before ++ after).
Proof.
  intros Hpose.
  assert (Hget : forall m,
    GetImageToReferenceTransformMatrix r frame m = (PLUS_FAIL, m)).
  { intros m. unfold GetImageToReferenceTransformMatrix. now rewrite Hpose. }
  assert (Hbox :
    ExtentOfFrameList VTK_DOUBLE_MAX VTK_DOUBLE_MIN r (before ++ frame :: after)
    = ExtentOfFrameList VTK_DOUBLE_MAX VTK_DOUBLE_MIN r (before ++ after)).
  { unfold ExtentOfFrameList. rewrite !fold_left_app. cbn [fold_left].
    now rewrite Hget. }
  repeat split.
  - apply Hget.
  - unfold AddTrackedFrame. now rewrite Hget.
  - exact Hbox.
  - unfold SetOutputExtentFromFrameList. now rewrite Hbox.
Qed.

(** *** The output extent *)

(** On an ordered interval and with positive spacing the conversion is the
    floor of the quotient the division gives. *)
Lemma ExtentAlongAxis_floor (lo hi spacing : double) :
  let width := Double.round (hi - lo) in
  let quotient := Double.round (width / spacing) in
  lo <= hi -> 0 < spacing ->
  width <= Double.DBL_MAX ->
  (Double.floor quotient <= Double.INT_MAX)%Z ->
  ExtentAlongAxis lo hi spacing = Some (Double.floor quotient).
Proof.
  intros width quotient Hle Hpos Hwidth Hmax. unfold ExtentAlongAxis.
  assert (H0 : 0 <= width)
    by (apply round_nonneg; exact (proj1 (Qcle_minus_iff lo hi) Hle)).
  unfold Double.sub. rewrite (rounded_in_range _ H0 Hwidth). fold width.
  assert (Hq : 0 <= quotient) by (apply round_nonneg; now apply ratio_nonneg).
  rewrite div_pos by assumption.
  rewrite (rounded_in_range _ Hq (small_is_finite _ Hmax)). fold quotient.
  now apply to_int_nonneg.
Qed.

(** On an inverted interval it is never positive. *)
Lemma ExtentAlongAxis_inverted (lo hi spacing : double) (e : Z) :
  hi <= lo -> 0 < spacing ->
  ExtentAlongAxis lo hi spacing = Some e -> (e <= 0)%Z.
Proof.
  intros Hle Hpos. unfold ExtentAlongAxis, Double.sub.
  destruct (Double.rounded (hi - lo)) as [width|] eqn:Ew; [| discriminate].
  apply rounded_value in Ew.
  assert (Hw : width <= 0).
  { subst width. apply round_nonpos.
    apply Qcopp_le_compat in Hle.
    apply (Qcplus_le_compat _ _ _ _ (Qcle_refl hi)) in Hle.
    now rewrite Qcplus_opp_r in Hle. }
  rewrite div_pos by assumption.
  destruct (Double.rounded (width / spacing)) as [q|] eqn:Eq; [| discriminate].
  apply rounded_value in Eq.
  assert (Hq : q <= 0) by (subst q; apply round_nonpos; now apply ratio_nonpos).
  unfold Double.to_int. destruct (_ && _); [| discriminate].
  intros H. injection H as <-. now apply trunc_nonpos.
Qed.

(** On an ordered interval it is never negative. *)
Lemma ExtentAlongAxis_ordered (lo hi spacing : double) (e : Z) :
  lo <= hi -> 0 < spacing ->
  ExtentAlongAxis lo hi spacing = Some e -> (0 <= e)%Z.
Proof.
  intros Hle Hpos. unfold ExtentAlongAxis, Double.sub.
  destruct (Double.rounded (hi - lo)) as [width|] eqn:Ew; [| discriminate].
  apply rounded_value in Ew.
  assert (Hw : 0 <= width)
    by (subst width; apply round_nonneg;
        exact (proj1 (Qcle_minus_iff lo hi) Hle)).
  rewrite div_pos by assumption.
  destruct (Double.rounded (width / spacing)) as [q|] eqn:Eq; [| discriminate].
  apply rounded_value in Eq.
  assert (Hq : 0 <= q) by (subst q; apply round_nonneg; now apply ratio_nonneg).
  unfold Double.to_int. destruct (_ && _); [| discriminate].
  intros H. injection H as <-.
  rewrite trunc_nonneg by assumption. now apply floor_nonneg.
Qed.

(** Once a point has been folded in, every axis of the box has its minimum
    below its maximum. *)
Lemma BoundingBox_ordered (lo hi : double) (points : list (list double))
  (axis : nat) :
  points <> [] -> (axis < 3)%nat ->
  load (BoundingBox lo hi points) (2 * axis)
    <= load (BoundingBox lo hi points) (2 * axis + 1).
Proof.
  intros Hne Haxis.
  destruct points as [|p points]; [congruence |].
  destruct axis as [|[|[|axis]]]; try lia.
  - apply (running_ordered _ _ _ (load p 0)). now left.
  - apply (running_ordered _ _ _ (load p 1)). now left.
  - apply (running_ordered _ _ _ (load p 2)). now left.
Qed.

Lemma ReferenceCorners_nonempty (imageToTool : vtkMatrix4x4) frame :
  GetDefaultFrameTransform frame <> None ->
  ReferenceCorners imageToTool frame <> [].
Proof.
  unfold ReferenceCorners, GetDefaultFrameTransform.
  destruct (DefaultFrameTransform frame); [discriminate | congruence].
Qed.

Lemma flat_map_nonempty {A B : Type} (f : A -> list B) (l : list A) (a : A) :
  In a l -> f a <> [] -> flat_map f l <> [].
Proof.
  intros Hin Hne Hnil.
  destruct (f a) as [|b bs] eqn:E; [congruence |].
  assert (Hb : In b (flat_map f l)).
  { apply in_flat_map. exists a. split; [assumption |]. rewrite E. now left. }
  rewrite Hnil in Hb. exact Hb.
Qed.

(** C2.  With at least one frame that has a pose, positive spacing,
    differences that do not overflow and quotients that fit an [int],
    [SetOutputExtentFromFrameList] hands the filter, on each axis, the index
    range from [0] to [floor((max - min) / spacing)] of the folded bounding
    box, and the per-axis minima as the origin, before it resets the output.
    The difference and the quotient are the ones the code computes: each is
    the exact result rounded to the nearest double.  In particular, when the
    folded box is [0,10] x [0,20] x [0,0] and the spacing is (1,1,1), the
    extent is [0,10,0,20,0,0] and the origin is (0,0,0). *)
Theorem output_extent_is_floor_of_box r (frames : list TrackedFrame) :
  let extent_Ref := ExtentOfFrameList VTK_DOUBLE_MAX VTK_DOUBLE_MIN r frames in
  let spacing := Filter.GetOutputSpacing (Reconstructor r) in
  let width (axis : nat) :=
    Double.round
      (load extent_Ref (2 * axis + 1) - load extent_Ref (2 * axis)) in
  let upper (axis : nat) :=
    Double.floor (Double.round (width axis / load spacing axis)) in
  ((exists frame, In frame frames /\ GetDefaultFrameTransform frame <> None) ->
   (forall axis, (axis < 3)%nat -> 0 < load spacing axis) ->
   (forall axis, (axis < 3)%nat -> width axis <= Double.DBL_MAX) ->
   (forall axis, (axis < 3)%nat -> (upper axis <= Double.INT_MAX)%Z) ->
   SetOutputExtentFromFrameList VTK_DOUBLE_MAX VTK_DOUBLE_MIN r frames
   = Some
       (TryResetOutput r
          (Filter.SetOutputOrigin
             (load extent_Ref 0) (load extent_Ref 2) (load extent_Ref 4)
             (Filter.SetOutputExtent
                [0; upper 0%nat; 0; upper 1%nat; 0; upper 2%nat]%Z
                (Reconstructor r))))) /\
  (extent_Ref = [0; Double.of_int 10; 0; Double.of_int 20; 0; 0] ->
   spacing = [1; 1; 1] ->
   SetOutputExtentFromFrameList VTK_DOUBLE_MAX VTK_DOUBLE_MIN r frames
   = Some
       (TryResetOutput r
          (Filter.SetOutputOrigin 0 0 0
             (Filter.SetOutputExtent [0; 10; 0; 20; 0; 0]%Z
                (Reconstructor r))))).
Proof.
  intros extent_Ref spacing width upper. split.
  - intros (frame & Hin & Hpose) Hspacing Hwidth Hmax.
    assert (Hord : forall axis, (axis < 3)%nat ->
              load extent_Ref (2 * axis) <= load extent_Ref (2 * axis + 1)).
    { intros axis Haxis. subst extent_Ref.
      rewrite ExtentOfFrameList_spec.
      apply BoundingBox_ordered; [| assumption].
      eapply flat_map_nonempty; [exact Hin |].
      now apply ReferenceCorners_nonempty. }
    unfold SetOutputExtentFromFrameList, OutputExtentOf.
    fold extent_Ref. fold spacing.
    assert (E0 : ExtentAlongAxis (load extent_Ref 0) (load extent_Ref 1)
                   (load spacing 0) = Some (upper 0%nat))
      by exact (ExtentAlongAxis_floor _ _ _ (Hord 0%nat ltac:(lia))
                  (Hspacing 0%nat ltac:(lia)) (Hwidth 0%nat ltac:(lia))
                  (Hmax 0%nat ltac:(lia))).
    assert (E1 : ExtentAlongAxis (load extent_Ref 2) (load extent_Ref 3)
                   (load spacing 1) = Some (upper 1%nat))
      by exact (ExtentAlongAxis_floor _ _ _ (Hord 1%nat ltac:(lia))
                  (Hspacing 1%nat ltac:(lia)) (Hwidth 1%nat ltac:(lia))
                  (Hmax 1%nat ltac:(lia))).
    assert (E2 : ExtentAlongAxis (load extent_Ref 4) (load extent_Ref 5)
                   (load spacing 2) = Some (upper 2%nat))
      by exact (ExtentAlongAxis_floor _ _ _ (Hord 2%nat ltac:(lia))
                  (Hspacing 2%nat ltac:(lia)) (Hwidth 2%nat ltac:(lia))
                  (Hmax 2%nat ltac:(lia))).
    now rewrite E0, E1, E2.
  - intros Hbox Hunit.
    assert (E : OutputExtentOf
                  [0; Double.of_int 10; 0; Double.of_int 20; 0; 0] [1; 1; 1]
                = Some [0; 10; 0; 20; 0; 0]%Z)
      by (vm_compute; reflexivity).
    unfold SetOutputExtentFromFrameList.
    fold extent_Ref. fold spacing. rewrite Hbox, Hunit, E. reflexivity.
Qed.

(** [TryResetOutput] succeeds exactly when [ResetOutput] returns success. *)
Lemma TryResetOutput_success r (f : F) :
  fst (TryResetOutput r f) = PLUS_SUCCESS <->
  exists f', Filter.ResetOutput f = Filter.Returns PLUS_SUCCESS f'.
Proof.
  unfold TryResetOutput.
  destruct (Filter.ResetOutput f) as [[|] f' | f']; cbn; split;
    try discriminate; try (intros [f'' H]; discriminate H).
  - intros _. now exists f'.
  - reflexivity.
Qed.

Lemma ExtentOfFrameList_no_pose r (frames : list TrackedFrame) :
  Forall (fun frame => GetDefaultFrameTransform frame = None) frames ->
  ExtentOfFrameList VTK_DOUBLE_MAX VTK_DOUBLE_MIN r frames
  = [VTK_DOUBLE_MAX; VTK_DOUBLE_MIN;
     VTK_DOUBLE_MAX; VTK_DOUBLE_MIN;
     VTK_DOUBLE_MAX; VTK_DOUBLE_MIN].
Proof.
  intros Hall. rewrite ExtentOfFrameList_spec.
  replace (flat_map (ReferenceCorners (ImageToToolTransform r)) frames)
    with (@nil (list double)); [reflexivity |].
  induction Hall as [|frame frames Hpose _ IH]; [reflexivity |].
  cbn [flat_map]. rewrite <- IH.
  unfold ReferenceCorners, GetDefaultFrameTransform in *. now rewrite Hpose.
Qed.

(** C3, as the code has it.  When no frame has a pose the bounding box is
    still at its sentinels, and [SetOutputExtentFromFrameList] does not look:
    where the three conversions are defined it sets the extent
    [0,e1,0,e3,0,e5] they give and the origin
    [(VTK_DOUBLE_MAX, VTK_DOUBLE_MAX, VTK_DOUBLE_MAX)], resets the output,
    and reports success exactly when [ResetOutput] does.  With
    [VTK_DOUBLE_MIN <= VTK_DOUBLE_MAX] and positive spacing none of the upper
    bounds [e1], [e3], [e5] is positive. *)
Theorem empty_extent_is_left_to_ResetOutput r (frames : list TrackedFrame) :
  let sentinels :=
    [VTK_DOUBLE_MAX; VTK_DOUBLE_MIN;
     VTK_DOUBLE_MAX; VTK_DOUBLE_MIN;
     VTK_DOUBLE_MAX; VTK_DOUBLE_MIN] in
  let spacing := Filter.GetOutputSpacing (Reconstructor r) in
  Forall (fun frame => GetDefaultFrameTransform frame = None) frames ->
  ExtentOfFrameList VTK_DOUBLE_MAX VTK_DOUBLE_MIN r frames = sentinels /\
  match OutputExtentOf sentinels spacing with
  | None =>
      SetOutputExtentFromFrameList VTK_DOUBLE_MAX VTK_DOUBLE_MIN r frames
      = None
  | Some outputExtent =>
      let f :=
        Filter.SetOutputOrigin VTK_DOUBLE_MAX VTK_DOUBLE_MAX VTK_DOUBLE_MAX
          (Filter.SetOutputExtent outputExtent (Reconstructor r)) in
      SetOutputExtentFromFrameList VTK_DOUBLE_MAX VTK_DOUBLE_MIN r frames
      = Some (TryResetOutput r f) /\
      (fst (TryResetOutput r f) = PLUS_SUCCESS <->
       exists f', Filter.ResetOutput f = Filter.Returns PLUS_SUCCESS f') /\
      exists e1 e3 e5 : Z,
        outputExtent = [0; e1; 0; e3; 0; e5]%Z /\
        (VTK_DOUBLE_MIN <= VTK_DOUBLE_MAX ->
         (forall axis, (axis < 3)%nat -> 0 < load spacing axis) ->
         (e1 <= 0)%Z /\ (e3 <= 0)%Z /\ (e5 <= 0)%Z)
  end.
Proof.
  intros sentinels spacing Hall.
  assert (Hbox := ExtentOfFrameList_no_pose r frames Hall).
  fold sentinels in Hbox. split; [exact Hbox |].
  unfold SetOutputExtentFromFrameList. rewrite Hbox. fold spacing.
  destruct (OutputExtentOf sentinels spacing) as [outputExtent|] eqn:E;
    [| reflexivity].
  split; [reflexivity |]. split; [apply TryResetOutput_success |].
  unfold OutputExtentOf, sentinels, load in E. cbn [nth] in E.
  destruct (ExtentAlongAxis _ _ (nth 0 spacing 0)) as [e1|] eqn:E1;
    [| discriminate].
  destruct (ExtentAlongAxis _ _ (nth 1 spacing 0)) as [e3|] eqn:E3;
    [| discriminate].
  destruct (ExtentAlongAxis _ _ (nth 2 spacing 0)) as [e5|] eqn:E5;
    [| discriminate].
  injection E as <-. exists e1, e3, e5. split; [reflexivity |].
  intros Hsentinels Hspacing. repeat split.
  - exact (ExtentAlongAxis_inverted _ _ _ _ Hsentinels
             (Hspacing 0%nat ltac:(lia)) E1).
  - exact (ExtentAlongAxis_inverted _ _ _ _ Hsentinels
             (Hspacing 1%nat ltac:(lia)) E3).
  - exact (ExtentAlongAxis_inverted _ _ _ _ Hsentinels
             (Hspacing 2%nat ltac:(lia)) E5).
Qed.

(** C6.  When [ResetOutput] cannot allocate the volume, whether it throws
    [std::bad_alloc] or returns [PLUS_FAIL], [SetOutputExtentFromFrameList]
    returns normally with the status [PLUS_FAIL]; the calibration is as it
    was, so the caller can call again with another spacing. *)
Theorem allocation_failure_is_reported
  r (frames : list TrackedFrame) (outputExtent : list Z) (f' : F) :
  let extent_Ref := ExtentOfFrameList VTK_DOUBLE_MAX VTK_DOUBLE_MIN r frames in
  let f :=
    Filter.SetOutputOrigin
      (load extent_Ref 0) (load extent_Ref 2) (load extent_Ref 4)
      (Filter.SetOutputExtent outputExtent (Reconstructor r)) in
  OutputExtentOf extent_Ref (Filter.GetOutputSpacing (Reconstructor r))
    = Some outputExtent ->
  Filter.ResetOutput f = Filter.ThrowsBadAlloc f' \/
  Filter.ResetOutput f = Filter.Returns PLUS_FAIL f' ->
  exists r',
    SetOutputExtentFromFrameList VTK_DOUBLE_MAX VTK_DOUBLE_MIN r frames
      = Some (PLUS_FAIL, r') /\
    Reconstructor r' = f' /\
    ImageToToolTransform r' = ImageToToolTransform r.
Proof.
  intros extent_Ref f Hextent Hreset.
  exists (WithReconstructor r f').
  unfold SetOutputExtentFromFrameList. fold extent_Ref. rewrite Hextent.
  fold f. unfold TryResetOutput.
  destruct Hreset as [H | H]; rewrite H; auto.
Qed.

(** *** The output volume *)

Lemma Interleave_component0 (voxels : list (Z * Z)) :
  map (fun idx => nth (idx * 2 + 0) (Interleave voxels) 0%Z)
      (seq 0 (List.length voxels))
  = map fst voxels.
Proof.
  induction voxels as [|v voxels IH]; [reflexivity |].
  cbn [List.length seq map]. f_equal.
  rewrite <- seq_shift, map_map. rewrite <- IH.
  apply map_ext. intros idx. reflexivity.
Qed.

(** C7.  For a reconstruction volume of two components per voxel, intensity
    and mask, [GetReconstructedVolume] succeeds and returns a volume of one
    component with the extent, the spacing and the origin of the
    reconstruction volume, whose scalars are the intensities of the voxels,
    unchanged and in order; no mask value is in it. *)
Theorem reconstructed_volume_is_intensity_channel
  r (voxels : list (Z * Z)) :
  let volume := Filter.GetReconstructedVolume (Reconstructor r) in
  NumberOfScalarComponents volume = 2%nat ->
  Scalars volume = Interleave voxels ->
  List.length voxels = NumberOfPoints (Extent volume) ->
  GetReconstructedVolume r
  = (PLUS_SUCCESS,
     {| Extent := Extent volume;
        Spacing := Spacing volume;
        Origin := Origin volume;
        NumberOfScalarComponents := 1;
        Scalars := map fst voxels |}).
Proof.
  intros volume Hcomp Hscalars Hlen.
  unfold GetReconstructedVolume, vtkImageExtractComponents.
  fold volume. rewrite <- Hlen.
  unfold GetScalarComponent. rewrite Hcomp, Hscalars.
  now rewrite Interleave_component0.
Qed.

(** *** The configuration *)

(** C10, where the code departs from it.  The guard on [MatrixValue] tests
    only that some number was read.  When the four elements are found and
    [MatrixValue] holds at least one number and fewer than sixteen,
    [ReadConfiguration] returns [PLUS_SUCCESS] and replaces the calibration:
    its first elements are the numbers read, the others are what the local
    array [aImageToTool] happened to hold. *)
Theorem ReadConfiguration_accepts_a_short_matrix
  r (config dc tracker tool calibration : vtkXMLDataElement)
  (matrixValue : string) :
  let values := ParseDoubles matrixValue in
  let result :=
    ReadConfiguration ProbeToolType ParseDoubles Uninitialized r config in
  FindNestedElementWithName config "USDataCollection" = Some dc ->
  FindNestedElementWithName dc "Tracker" = Some tracker ->
  FindNestedElementWithNameAndAttribute tracker "Tool" "Type" ProbeToolType
    = Some tool ->
  FindNestedElementWithName tool "Calibration" = Some calibration ->
  GetAttribute calibration "MatrixValue" = Some matrixValue ->
  (0 < List.length values < 16)%nat ->
  fst result = PLUS_SUCCESS /\
  forall i, (i < 16)%nat ->
    load (ImageToToolTransform (snd result)) i
    = if (i <? List.length values)%nat
      then load values i else load Uninitialized i.
Proof.
  intros values result H1 H2 H3 H4 H5 Hlen. subst result.
  unfold ReadConfiguration, GetVectorAttribute.
  rewrite H1, H2, H3, H4, H5. fold values.
  rewrite firstn_all2 by lia.
  destruct (List.length values) as [|count] eqn:E; [lia |].
  cbn [fst snd ImageToToolTransform]. split; [reflexivity |].
  intros i Hi. rewrite load_DeepCopy by assumption.
  rewrite <- E. apply load_overwritten.
Qed.

(** X25.  [ReadConfiguration] changes the calibration on its success path
    only.  When the configuration lacks [USDataCollection], [Tracker], the
    probe [Tool], [Calibration] or the [MatrixValue] attribute, it returns
    [PLUS_FAIL] and the stored image-to-tool transform is the one it was;
    every return of [PLUS_FAIL] leaves that transform as it was; and a
    return of [PLUS_SUCCESS] means that all four elements were found and
    that [MatrixValue] gave at least one number, and the new transform is
    the array the numbers were read into. *)
Theorem ReadConfiguration_changes_calibration_on_success_only
  r (config : vtkXMLDataElement) :
  let result :=
    ReadConfiguration ProbeToolType ParseDoubles Uninitialized r config in
  (MissingElement ProbeToolType config ->
   fst result = PLUS_FAIL /\
   ImageToToolTransform (snd result) = ImageToToolTransform r) /\
  (fst result = PLUS_FAIL ->
   ImageToToolTransform (snd result) = ImageToToolTransform r) /\
  (fst result = PLUS_SUCCESS ->
   exists dc tracker tool calibration,
     FindNestedElementWithName config "USDataCollection" = Some dc /\
     FindNestedElementWithName dc "Tracker" = Some tracker /\
     FindNestedElementWithNameAndAttribute
       tracker "Tool" "Type" ProbeToolType = Some tool /\
     FindNestedElementWithName tool "Calibration" = Some calibration /\
     fst (GetVectorAttribute ParseDoubles calibration "MatrixValue" 16
            Uninitialized) <> O /\
     ImageToToolTransform (snd result)
       = DeepCopy
           (snd (GetVectorAttribute ParseDoubles calibration "MatrixValue" 16
                   Uninitialized))).
Proof.
  intros result. subst result. unfold ReadConfiguration.
  split; [| split].
  - intros [H | dc H1 H | dc tracker H1 H2 H
           | dc tracker tool H1 H2 H3 H
           | dc tracker tool calibration H1 H2 H3 H4 H];
      repeat match goal with
        | E : _ = Some _ |- _ => rewrite E; clear E
        end;
      try (rewrite H; split; reflexivity).
    unfold GetVectorAttribute. rewrite H. split; reflexivity.
  - destruct (FindNestedElementWithName config _) as [dc|];
      [| reflexivity].
    destruct (FindNestedElementWithName dc _) as [tracker|];
      [| reflexivity].
    destruct (FindNestedElementWithNameAndAttribute tracker _ _ _) as [tool|];
      [| reflexivity].
    destruct (FindNestedElementWithName tool _) as [calibration|];
      [| reflexivity].
    destruct (GetVectorAttribute _ _ _ _ _) as [[|count] aImageToTool];
      [reflexivity | discriminate].
  - destruct (FindNestedElementWithName config _) as [dc|] eqn:E1;
      [| discriminate].
    destruct (FindNestedElementWithName dc _) as [tracker|] eqn:E2;
      [| discriminate].
    destruct (FindNestedElementWithNameAndAttribute tracker _ _ _)
      as [tool|] eqn:E3; [| discriminate].
    destruct (FindNestedElementWithName tool _) as [calibration|] eqn:E4;
      [| discriminate].
    destruct (GetVectorAttribute _ _ _ _ _) as [[|count] aImageToTool] eqn:E5;
      [discriminate |].
    intros _. exists dc, tracker, tool, calibration.
    rewrite E5. cbn [fst snd]. repeat split; auto.
Qed.

End Properties.

(** The order of the factors matters: with a pose that shifts and a
    calibration that scales, the class returns pose * calibration, which
    differs from calibration * pose. *)
Lemma product_is_not_commuted :
  GetImageToReferenceTransformMatrix
    Lab.ScalingReconstructor Lab.FrameShifted Identity
    = (PLUS_SUCCESS, Multiply4x4 Lab.ShiftX Lab.Scale2) /\
  Multiply4x4 Lab.ShiftX Lab.Scale2 <> Multiply4x4 Lab.Scale2 Lab.ShiftX.
Proof.
  split; [reflexivity |].
  intros H.
  apply (f_equal (fun m => Qnum (this (GetElement m 0 3)))) in H.
  vm_compute in H. discriminate H.
Qed.

(** ** More on the bounding box *)

Section ArrayFacts.

Lemma store_length {A : Type} (i : nat) (x : A) (a : list A) :
  List.length (store i x a) = List.length a.
Proof.
  revert i. induction a as [|h t IH]; intros [|i]; cbn; auto.
Qed.

Lemma nth_store_other {A : Type} (i j : nat) (x d : A) (a : list A) :
  i <> j -> nth i (store j x a) d = nth i a d.
Proof.
  revert i j. induction a as [|h t IH]; intros [|i] [|j] Hij; cbn;
    auto; congruence.
Qed.

End ArrayFacts.

Section MoreBoxFacts.

Import DoubleFacts Spec.

Lemma min_absorb (m x : double) : m <= x -> Double.min m x = m.
Proof.
  intros H. unfold Double.min.
  destruct (Double.ltb x m) eqn:E; [| reflexivity].
  apply ltb_lt in E. now apply Qcle_not_lt in H.
Qed.

Lemma max_absorb (m x : double) : x <= m -> Double.max m x = m.
Proof.
  intros H. unfold Double.max.
  destruct (Double.ltb m x) eqn:E; [| reflexivity].
  apply ltb_lt in E. now apply Qcle_not_lt in H.
Qed.

(** A running minimum that starts below all the values stays where it is. *)
Lemma RunningMin_fixed (m : double) (values : list double) :
  (forall x, In x values -> m <= x) -> RunningMin m values = m.
Proof.
  induction values as [|x xs IH]; intros H; [reflexivity |].
  unfold RunningMin in *. cbn [fold_left].
  rewrite min_absorb by (apply H; now left).
  apply IH. intros y Hy. apply H. now right.
Qed.

Lemma RunningMax_fixed (m : double) (values : list double) :
  (forall x, In x values -> x <= m) -> RunningMax m values = m.
Proof.
  induction values as [|x xs IH]; intros H; [reflexivity |].
  unfold RunningMax in *. cbn [fold_left].
  rewrite max_absorb by (apply H; now left).
  apply IH. intros y Hy. apply H. now right.
Qed.

(** The running minimum is the least element of the seed and the values, so
    it depends on the values as a set only. *)
Lemma RunningMin_same_elements (init : double) (l l' : list double) :
  (forall x, In x l <-> In x l') -> RunningMin init l = RunningMin init l'.
Proof.
  intros H. apply Qcle_antisym.
  - destruct (RunningMin_in init l') as [E | Hin].
    + rewrite <- E. apply RunningMin_le_init.
    + apply RunningMin_le_value. now apply H.
  - destruct (RunningMin_in init l) as [E | Hin].
    + rewrite <- E. apply RunningMin_le_init.
    + apply RunningMin_le_value. now apply H.
Qed.

Lemma RunningMax_same_elements (init : double) (l l' : list double) :
  (forall x, In x l <-> In x l') -> RunningMax init l = RunningMax init l'.
Proof.
  intros H. apply Qcle_antisym.
  - destruct (RunningMax_in init l) as [E | Hin].
    + rewrite <- E. apply RunningMax_ge_init.
    + apply RunningMax_ge_value. now apply H.
  - destruct (RunningMax_in init l') as [E | Hin].
    + rewrite <- E. apply RunningMax_ge_init.
    + apply RunningMax_ge_value. now apply H.
Qed.

Lemma Coordinates_same_elements (axis : nat) (l l' : list (list double)) :
  (forall p, In p l <-> In p l') ->
  forall x, In x (Coordinates axis l) <-> In x (Coordinates axis l').
Proof.
  intros H x. unfold Coordinates. rewrite !in_map_iff.
  split; intros (p & Hp & Hin); exists p; (split; [exact Hp | now apply H]).
Qed.

Lemma ExpandBox_same_elements (box : list double) (l l' : list (list double)) :
  (forall p, In p l <-> In p l') -> ExpandBox box l = ExpandBox box l'.
Proof.
  intros H. unfold ExpandBox.
  rewrite (RunningMin_same_elements _ _ _ (Coordinates_same_elements 0 _ _ H)).
  rewrite (RunningMax_same_elements _ _ _ (Coordinates_same_elements 0 _ _ H)).
  rewrite (RunningMin_same_elements _ _ _ (Coordinates_same_elements 1 _ _ H)).
  rewrite (RunningMax_same_elements _ _ _ (Coordinates_same_elements 1 _ _ H)).
  rewrite (RunningMin_same_elements _ _ _ (Coordinates_same_elements 2 _ _ H)).
  rewrite (RunningMax_same_elements _ _ _ (Coordinates_same_elements 2 _ _ H)).
  reflexivity.
Qed.

(** A box that holds all the points is not changed by them. *)
Lemma ExpandBox_fixed (a0 a1 a2 a3 a4 a5 : double)
  (points : list (list double)) :
  (forall p, In p points ->
     a0 <= load p 0 /\ load p 0 <= a1 /\
     a2 <= load p 1 /\ load p 1 <= a3 /\
     a4 <= load p 2 /\ load p 2 <= a5) ->
  ExpandBox [a0; a1; a2; a3; a4; a5] points = [a0; a1; a2; a3; a4; a5].
Proof.
  intros H. unfold ExpandBox, Coordinates, load at 1 3 5 7 9 11.
  cbn [nth].
  rewrite !RunningMin_fixed, !RunningMax_fixed; [reflexivity | ..];
    intros x Hx; apply in_map_iff in Hx; destruct Hx as (p & <- & Hp);
    apply H in Hp; tauto.
Qed.

End MoreBoxFacts.

Section ExtentProperties.

#[local] Set Default Proof Using "Type".

Import DoubleFacts Spec.

Context {F : Type} {filter : Filter.Ops F}.
Variables VTK_DOUBLE_MAX VTK_DOUBLE_MIN : double.

Implicit Types (r : vtkVolumeReconstructor F) (frame : TrackedFrame).

Lemma fold_left_preserves {A B : Type} (P : A -> Prop) (f : A -> B -> A)
  (l : list B) :
  (forall a x, In x l -> P a -> P (f a x)) ->
  forall a, P a -> P (fold_left f l a).
Proof.
  induction l as [|x l IH]; intros Hstep a Ha; [exact Ha |].
  cbn [fold_left]. apply IH.
  - intros a' y Hy. apply Hstep. now right.
  - apply Hstep; [now left | exact Ha].
Qed.

Lemma ExpandBox_idempotent (box : list double) (points : list (list double)) :
  ExpandBox (ExpandBox box points) points = ExpandBox box points.
Proof.
  rewrite <- ExpandBox_app. apply ExpandBox_same_elements.
  intros p. rewrite in_app_iff. tauto.
Qed.

(** X1.  Adding the same image under the same transform a second time
    changes nothing. *)
Theorem AddImageToExtent_idempotent
  (image : vtkImageData) (m : vtkMatrix4x4) (extent_Ref : list double) :
  List.length extent_Ref = 6%nat ->
  AddImageToExtent image m (AddImageToExtent image m extent_Ref)
  = AddImageToExtent image m extent_Ref.
Proof.
  intros He.
  rewrite (AddImageToExtent_spec image m extent_Ref He).
  rewrite AddImageToExtent_spec by apply ExpandBox_length.
  apply ExpandBox_idempotent.
Qed.

(** X2.  Two images can be added in either order. *)
Theorem AddImageToExtent_commutes
  (image1 image2 : vtkImageData) (m1 m2 : vtkMatrix4x4)
  (extent_Ref : list double) :
  List.length extent_Ref = 6%nat ->
  AddImageToExtent image1 m1 (AddImageToExtent image2 m2 extent_Ref)
  = AddImageToExtent image2 m2 (AddImageToExtent image1 m1 extent_Ref).
Proof.
  intros He.
  rewrite (AddImageToExtent_spec image2 m2 extent_Ref He).
  rewrite (AddImageToExtent_spec image1 m1 extent_Ref He).
  rewrite !AddImageToExtent_spec by apply ExpandBox_length.
  rewrite <- !ExpandBox_app.
  apply ExpandBox_Permutation, Permutation_app_comm.
Qed.

(** X3.  Whatever the box was, after [AddImageToExtent] none of the four
    transformed corners of the image is below the minimum of the box or
    above its maximum, on any axis: for every corner both comparisons of
    the loop, lines 159 and 164, are false on the box that is returned. *)
Theorem AddImageToExtent_contains_corners
  (image : vtkImageData) (m : vtkMatrix4x4) (extent_Ref : list double)
  (axis : nat) (corner : list double) :
  let corner_Ref := MultiplyPoint m corner in
  let box := AddImageToExtent image m extent_Ref in
  List.length extent_Ref = 6%nat ->
  (axis < 3)%nat ->
  In corner (corners_ImagePix image) ->
  Double.ltb (load corner_Ref axis) (load box (axis * 2)) = false /\
  Double.gtb (load corner_Ref axis) (load box (axis * 2 + 1)) = false.
Proof.
  intros corner_Ref box He Haxis Hc. subst corner_Ref box.
  rewrite AddImageToExtent_spec by assumption.
  rewrite corners_ImagePix_spec in Hc.
  assert (Hin : forall k, In (load (MultiplyPoint m corner) k)
                            (Coordinates k
                               (map (MultiplyPoint m) (ImageCorners image)))).
  { intros k. unfold Coordinates.
    apply (in_map (fun p => load p k)). now apply in_map. }
  unfold Double.gtb. rewrite !ltb_ge.
  destruct axis as [|[|[|axis]]]; try lia;
    (split; [apply RunningMin_le_value | apply RunningMax_ge_value]);
    apply Hin.
Qed.

(** X4.  A box that already holds the four transformed corners is returned
    as it is. *)
Theorem AddImageToExtent_fixed
  (image : vtkImageData) (m : vtkMatrix4x4) (extent_Ref : list double) :
  List.length extent_Ref = 6%nat ->
  (forall corner axis,
     In corner (corners_ImagePix image) -> (axis < 3)%nat ->
     load extent_Ref (axis * 2) <= load (MultiplyPoint m corner) axis /\
     load (MultiplyPoint m corner) axis <= load extent_Ref (axis * 2 + 1)) ->
  AddImageToExtent image m extent_Ref = extent_Ref.
Proof.
  intros He Hin. rewrite AddImageToExtent_spec by assumption.
  destruct extent_Ref as [|a0 [|a1 [|a2 [|a3 [|a4 [|a5 [|a6 e]]]]]]];
    try discriminate.
  apply ExpandBox_fixed.
  intros p Hp. apply in_map_iff in Hp. destruct Hp as (corner & <- & Hc).
  rewrite <- corners_ImagePix_spec in Hc.
  pose proof (Hin corner 0%nat Hc ltac:(lia)) as H0.
  pose proof (Hin corner 1%nat Hc ltac:(lia)) as H1.
  pose proof (Hin corner 2%nat Hc ltac:(lia)) as H2.
  tauto.
Qed.

Lemma ExpandAxis_keeps_rest (corner_Ref extent_Ref : list double)
  (axis : nat) :
  (axis < 3)%nat ->
  List.length (ExpandAxis corner_Ref extent_Ref axis)
    = List.length extent_Ref /\
  forall i, (6 <= i)%nat ->
    load (ExpandAxis corner_Ref extent_Ref axis) i = load extent_Ref i.
Proof.
  intros Haxis. unfold ExpandAxis, load.
  destruct (Double.ltb _ _); destruct (Double.gtb _ _);
    rewrite ?store_length; (split; [reflexivity |]); intros i Hi;
    rewrite ?nth_store_other by lia; reflexivity.
Qed.

(** X5.  [AddImageToExtent] writes the first six entries of [extent_Ref]
    only: the array keeps its length, and an entry from the seventh on is
    what it was. *)
Theorem AddImageToExtent_writes_six_entries
  (image : vtkImageData) (m : vtkMatrix4x4) (extent_Ref : list double) :
  List.length (AddImageToExtent image m extent_Ref)
    = List.length extent_Ref /\
  forall i, (6 <= i)%nat ->
    load (AddImageToExtent image m extent_Ref) i = load extent_Ref i.
Proof.
  unfold AddImageToExtent.
  apply (fold_left_preserves
           (fun e => List.length e = List.length extent_Ref /\
                     forall i, (6 <= i)%nat -> load e i = load extent_Ref i));
    [| split; reflexivity].
  intros e corner _ He.
  apply (fold_left_preserves
           (fun e => List.length e = List.length extent_Ref /\
                     forall i, (6 <= i)%nat -> load e i = load extent_Ref i));
    [| exact He].
  intros e' axis Haxis [Hlen Hrest].
  apply in_seq in Haxis.
  destruct (ExpandAxis_keeps_rest (MultiplyPoint m corner) e' axis) as [L R];
    [lia |].
  split; [congruence |].
  intros i Hi. rewrite R by assumption. now apply Hrest.
Qed.

Lemma ReferenceCorners_same_elements (imageToTool : vtkMatrix4x4)
  (frames frames' : list TrackedFrame) :
  (forall frame, In frame frames <-> In frame frames') ->
  forall p,
    In p (flat_map (ReferenceCorners imageToTool) frames) <->
    In p (flat_map (ReferenceCorners imageToTool) frames').
Proof.
  intros H p. rewrite !in_flat_map.
  split; intros (frame & Hf & Hp); exists frame;
    (split; [now apply H | exact Hp]).
Qed.

(** X6.  The bounding box, and with it the whole outcome of
    [SetOutputExtentFromFrameList], depends on which frames are in the list,
    not on how often or in which order: two lists with the same members give
    the same result. *)
Theorem extent_depends_on_the_set_of_frames
  r (frames frames' : list TrackedFrame) :
  (forall frame, In frame frames <-> In frame frames') ->
  ExtentOfFrameList VTK_DOUBLE_MAX VTK_DOUBLE_MIN r frames
    = ExtentOfFrameList VTK_DOUBLE_MAX VTK_DOUBLE_MIN r frames' /\
  SetOutputExtentFromFrameList VTK_DOUBLE_MAX VTK_DOUBLE_MIN r frames
    = SetOutputExtentFromFrameList VTK_DOUBLE_MAX VTK_DOUBLE_MIN r frames'.
Proof.
  intros H.
  assert (Hbox :
    ExtentOfFrameList VTK_DOUBLE_MAX VTK_DOUBLE_MIN r frames
    = ExtentOfFrameList VTK_DOUBLE_MAX VTK_DOUBLE_MIN r frames').
  { rewrite !ExtentOfFrameList_spec. apply ExpandBox_same_elements.
    now apply ReferenceCorners_same_elements. }
  split; [exact Hbox |].
  unfold SetOutputExtentFromFrameList. now rewrite Hbox.
Qed.

(** X7.  More frames give a box that is at least as wide: on every axis the
    minimum over [frames ++ more] is at most the minimum over [frames], and
    the maximum at least the maximum. *)
Theorem more_frames_widen_the_extent
  r (frames more : list TrackedFrame) (axis : nat) :
  (axis < 3)%nat ->
  load (ExtentOfFrameList VTK_DOUBLE_MAX VTK_DOUBLE_MIN r (frames ++ more))
       (axis * 2)
    <= load (ExtentOfFrameList VTK_DOUBLE_MAX VTK_DOUBLE_MIN r frames)
         (axis * 2) /\
  load (ExtentOfFrameList VTK_DOUBLE_MAX VTK_DOUBLE_MIN r frames)
       (axis * 2 + 1)
    <= load (ExtentOfFrameList VTK_DOUBLE_MAX VTK_DOUBLE_MIN r (frames ++ more))
         (axis * 2 + 1).
Proof.
  intros Haxis.
  rewrite (ExtentOfFrameList_spec VTK_DOUBLE_MAX VTK_DOUBLE_MIN r
             (frames ++ more)).
  rewrite flat_map_app. unfold BoundingBox. rewrite ExpandBox_app.
  fold (BoundingBox VTK_DOUBLE_MAX VTK_DOUBLE_MIN
          (flat_map (ReferenceCorners (ImageToToolTransform r)) frames)).
  rewrite <- ExtentOfFrameList_spec.
  destruct axis as [|[|[|axis]]]; try lia;
    (split; [apply RunningMin_le_init | apply RunningMax_ge_init]).
Qed.

End ExtentProperties.

(** ** More on the class *)

Section MatrixIdentity.

Lemma DeepCopy_16 (elements rest : list double) :
  List.length elements = 16%nat ->
  DeepCopy (elements ++ rest) = elements.
Proof.
  intros H.
  do 16 (destruct elements as [|? elements]; [discriminate |]).
  destruct elements; [reflexivity | discriminate].
Qed.

Lemma Multiply4x4_Identity_r (a : vtkMatrix4x4) :
  List.length a = 16%nat -> Multiply4x4 a Identity = a.
Proof.
  intros H.
  do 16 (destruct a as [|? a]; [discriminate |]).
  destruct a; [| discriminate].
  unfold Multiply4x4, GetElement, load, Identity; cbn.
  unfold double in *.
  repeat (f_equal; [ring |]). f_equal. ring.
Qed.

Lemma Multiply4x4_Identity_l (a : vtkMatrix4x4) :
  List.length a = 16%nat -> Multiply4x4 Identity a = a.
Proof.
  intros H.
  do 16 (destruct a as [|? a]; [discriminate |]).
  destruct a; [| discriminate].
  unfold Multiply4x4, GetElement, load, Identity; cbn.
  unfold double in *.
  repeat (f_equal; [ring |]). f_equal. ring.
Qed.

End MatrixIdentity.

Section ClassProperties.

#[local] Set Default Proof Using "Type".

Import DoubleFacts Spec.

Context {F : Type} {filter : Filter.Ops F}.
Variables VTK_DOUBLE_MAX VTK_DOUBLE_MIN : double.
Variable ProbeToolType : string.
Variable ParseDoubles : string -> list double.
Variable Uninitialized : list double.

Implicit Types (r : vtkVolumeReconstructor F) (frame : TrackedFrame).

(** X8.  Rounding does not change a sign.  With positive spacing on an
    axis, where the three conversions of lines 207-209 are defined, the
    upper index of that axis is not negative when the box has its minimum
    at most at its maximum there, and not positive when the box is inverted
    there. *)
Theorem upper_index_has_the_sign_of_the_width
  (extent_Ref spacing : list double) (outputExtent : list Z) (axis : nat) :
  let lo := load extent_Ref (2 * axis) in
  let hi := load extent_Ref (2 * axis + 1) in
  let e := nth (2 * axis + 1) outputExtent 0%Z in
  OutputExtentOf extent_Ref spacing = Some outputExtent ->
  (axis < 3)%nat ->
  0 < load spacing axis ->
  (lo <= hi -> (0 <= e)%Z) /\ (hi <= lo -> (e <= 0)%Z).
Proof.
  intros lo hi e Hextent Haxis Hspacing. subst lo hi e.
  unfold OutputExtentOf in Hextent.
  destruct (ExtentAlongAxis _ _ (load spacing 0)) as [e1|] eqn:E1;
    [| discriminate].
  destruct (ExtentAlongAxis _ _ (load spacing 1)) as [e3|] eqn:E3;
    [| discriminate].
  destruct (ExtentAlongAxis _ _ (load spacing 2)) as [e5|] eqn:E5;
    [| discriminate].
  injection Hextent as <-.
  destruct axis as [|[|[|axis]]]; try lia; cbn [Nat.mul Nat.add nth]; split;
    intros Hbox;
    first [ eapply ExtentAlongAxis_ordered; eassumption
          | eapply ExtentAlongAxis_inverted; eassumption ].
Qed.

(** X9.  [SetOutputExtentFromFrameList] never touches the calibration, and
    its status is the outcome of [ResetOutput] on the filter it prepared:
    the status [ResetOutput] returned, or [PLUS_FAIL] when it threw; the
    filter kept is the one [ResetOutput] left. *)
Theorem SetOutputExtentFromFrameList_outcome
  r (frames : list TrackedFrame) (status : PlusStatus)
  (r' : vtkVolumeReconstructor F) :
  SetOutputExtentFromFrameList VTK_DOUBLE_MAX VTK_DOUBLE_MIN r frames
    = Some (status, r') ->
  ImageToToolTransform r' = ImageToToolTransform r /\
  exists outputExtent,
    OutputExtentOf
      (ExtentOfFrameList VTK_DOUBLE_MAX VTK_DOUBLE_MIN r frames)
      (Filter.GetOutputSpacing (Reconstructor r)) = Some outputExtent /\
    nth 0 outputExtent 1%Z = 0%Z /\
    nth 2 outputExtent 1%Z = 0%Z /\
    nth 4 outputExtent 1%Z = 0%Z /\
    let f :=
      Filter.SetOutputOrigin
        (load (ExtentOfFrameList VTK_DOUBLE_MAX VTK_DOUBLE_MIN r frames) 0)
        (load (ExtentOfFrameList VTK_DOUBLE_MAX VTK_DOUBLE_MIN r frames) 2)
        (load (ExtentOfFrameList VTK_DOUBLE_MAX VTK_DOUBLE_MIN r frames) 4)
        (Filter.SetOutputExtent outputExtent (Reconstructor r)) in
    (Filter.ResetOutput f = Filter.Returns status (Reconstructor r') \/
     (status = PLUS_FAIL /\
      Filter.ResetOutput f = Filter.ThrowsBadAlloc (Reconstructor r'))).
Proof.
  unfold SetOutputExtentFromFrameList.
  destruct (OutputExtentOf _ _) as [outputExtent|] eqn:E; [| discriminate].
  intros H. injection H as H. unfold TryResetOutput in H.
  assert (Hzero : nth 0 outputExtent 1%Z = 0%Z /\
                  nth 2 outputExtent 1%Z = 0%Z /\
                  nth 4 outputExtent 1%Z = 0%Z).
  { unfold OutputExtentOf in E.
    destruct (ExtentAlongAxis _ _ _); [| discriminate].
    destruct (ExtentAlongAxis _ _ _); [| discriminate].
    destruct (ExtentAlongAxis _ _ _); [| discriminate].
    injection E as <-. repeat split. }
  destruct Hzero as (Z0 & Z2 & Z4).
  destruct (Filter.ResetOutput _) as [[|] f' | f'] eqn:R;
    injection H as <- <-; (split; [reflexivity |]);
    exists outputExtent; (split; [reflexivity |]);
    (split; [exact Z0 |]); (split; [exact Z2 |]); (split; [exact Z4 |]);
    cbv zeta; cbn [Reconstructor WithReconstructor];
    first [left; exact R | right; split; [reflexivity | exact R]].
Qed.

(** X10.  When the four elements are found and [MatrixValue] holds at least
    sixteen numbers, [ReadConfiguration] succeeds and the calibration is
    exactly the first sixteen numbers, whatever the local array held before
    and whatever the calibration was. *)
Theorem ReadConfiguration_reads_sixteen_numbers
  r (config dc tracker tool calibration : vtkXMLDataElement)
  (matrixValue : string) :
  FindNestedElementWithName config "USDataCollection" = Some dc ->
  FindNestedElementWithName dc "Tracker" = Some tracker ->
  FindNestedElementWithNameAndAttribute tracker "Tool" "Type" ProbeToolType
    = Some tool ->
  FindNestedElementWithName tool "Calibration" = Some calibration ->
  GetAttribute calibration "MatrixValue" = Some matrixValue ->
  (16 <= List.length (ParseDoubles matrixValue))%nat ->
  ReadConfiguration ProbeToolType ParseDoubles Uninitialized r config
  = (PLUS_SUCCESS,
     {| Reconstructor :=
          snd (Filter.ReadConfiguration config (Reconstructor r));
        ImageToToolTransform := firstn 16 (ParseDoubles matrixValue) |}).
Proof.
  intros H1 H2 H3 H4 H5 Hlen.
  unfold ReadConfiguration, GetVectorAttribute.
  rewrite H1, H2, H3, H4, H5.
  assert (L : List.length (firstn 16 (ParseDoubles matrixValue)) = 16%nat)
    by (rewrite length_firstn; lia).
  rewrite L. cbn [Reconstructor WithReconstructor].
  now rewrite DeepCopy_16.
Qed.

(** X11.  [ReadConfiguration] hands the configuration to the filter first
    and keeps the filter that comes back in every case, without looking at
    the filter's status.  Its own status depends on the configuration only:
    not on the object it is called on, and not on what the local array held.
    The calibration it sets on success does not depend on the object it is
    called on. *)
Theorem ReadConfiguration_ignores_the_filter
  r (r0 : vtkVolumeReconstructor F) (Uninitialized0 : list double)
  (config : vtkXMLDataElement) :
  let result :=
    ReadConfiguration ProbeToolType ParseDoubles Uninitialized r config in
  let other_object :=
    ReadConfiguration ProbeToolType ParseDoubles Uninitialized r0 config in
  let other_array :=
    ReadConfiguration ProbeToolType ParseDoubles Uninitialized0 r0 config in
  Reconstructor (snd result)
    = snd (Filter.ReadConfiguration config (Reconstructor r)) /\
  fst result = fst other_array /\
  (fst result = PLUS_SUCCESS ->
   ImageToToolTransform (snd result)
   = ImageToToolTransform (snd other_object)).
Proof.
  cbv zeta. unfold ReadConfiguration.
  destruct (FindNestedElementWithName config _) as [dc|];
    [| repeat split; discriminate].
  destruct (FindNestedElementWithName dc _) as [tracker|];
    [| repeat split; discriminate].
  destruct (FindNestedElementWithNameAndAttribute tracker _ _ _) as [tool|];
    [| repeat split; discriminate].
  destruct (FindNestedElementWithName tool _) as [calibration|];
    [| repeat split; discriminate].
  unfold GetVectorAttribute.
  destruct (GetAttribute calibration _) as [str|];
    [| repeat split; discriminate].
  destruct (List.length (firstn 16 (ParseDoubles str)));
    repeat split; discriminate.
Qed.

(** X12.  A reconstructor that has not read a calibration holds the
    identity, so the image-to-reference transform of a frame is the frame's
    pose itself; and with the identity as the pose it is the calibration
    itself. *)
Theorem identity_transforms
  (f : F) r (frame : TrackedFrame) (toolToReference out : vtkMatrix4x4) :
  (GetDefaultFrameTransform frame = Some toolToReference ->
   List.length toolToReference = 16%nat ->
   GetImageToReferenceTransformMatrix (New f) frame out
   = (PLUS_SUCCESS, toolToReference)) /\
  (GetDefaultFrameTransform frame = Some Identity ->
   List.length (ImageToToolTransform r) = 16%nat ->
   GetImageToReferenceTransformMatrix r frame out
   = (PLUS_SUCCESS, ImageToToolTransform r)).
Proof.
  unfold GetImageToReferenceTransformMatrix,
    GetImageToReferenceTransformMatrix_FromMatrix.
  split; intros Hpose Hlen; rewrite Hpose.
  - rewrite <- (app_nil_r toolToReference) at 1.
    rewrite DeepCopy_16 by assumption.
    cbn [ImageToToolTransform New].
    now rewrite Multiply4x4_Identity_r.
  - rewrite <- (app_nil_r Identity) at 1.
    rewrite DeepCopy_16 by reflexivity.
    now rewrite Multiply4x4_Identity_l.
Qed.

(** X22.  [AddTrackedFrame] succeeds exactly when the frame has a pose and
    [InsertSlice], given the frame's image and pose * calibration, succeeds;
    a frame with a pose leaves the filter [InsertSlice] returns, whatever
    the status; and the calibration is never changed. *)
Theorem AddTrackedFrame_outcome r frame :
  (fst (AddTrackedFrame r frame) = PLUS_SUCCESS <->
   exists toolToReference,
     GetDefaultFrameTransform frame = Some toolToReference /\
     fst (Filter.InsertSlice (GetVtkImageNonFlipped frame)
            (Multiply4x4 (DeepCopy toolToReference) (ImageToToolTransform r))
            (Reconstructor r)) = PLUS_SUCCESS) /\
  (forall toolToReference,
     GetDefaultFrameTransform frame = Some toolToReference ->
     Reconstructor (snd (AddTrackedFrame r frame))
     = snd (Filter.InsertSlice (GetVtkImageNonFlipped frame)
              (Multiply4x4 (DeepCopy toolToReference)
                 (ImageToToolTransform r))
              (Reconstructor r))) /\
  ImageToToolTransform (snd (AddTrackedFrame r frame))
  = ImageToToolTransform r.
Proof.
  unfold AddTrackedFrame, GetImageToReferenceTransformMatrix,
    GetImageToReferenceTransformMatrix_FromMatrix.
  destruct (GetDefaultFrameTransform frame) as [pose|].
  - destruct (Filter.InsertSlice _ _ _) as [status f'] eqn:E.
    cbn [fst snd]. split; [| split].
    + split.
      * intros Hs. exists pose. split; [reflexivity |].
        rewrite E. exact Hs.
      * intros (T & HT & Hs). injection HT as <-. rewrite E in Hs. exact Hs.
    + intros T HT. injection HT as <-. rewrite E. reflexivity.
    + reflexivity.
  - cbn [fst snd]. split; [| split].
    + split; [discriminate |]. intros (T & HT & _). discriminate HT.
    + intros T HT. discriminate HT.
    + reflexivity.
Qed.

(** X23.  In extent estimation the frames without a pose can be left out all
    together: [SetOutputExtentFromFrameList] gives for a list what it gives
    for the frames of the list that have a pose. *)
Theorem extent_of_posed_frames_only r (frames : list TrackedFrame) :
  ExtentOfFrameList VTK_DOUBLE_MAX VTK_DOUBLE_MIN r frames
    = ExtentOfFrameList VTK_DOUBLE_MAX VTK_DOUBLE_MIN r
        (List.filter DriverSpec.HasPose frames) /\
  SetOutputExtentFromFrameList VTK_DOUBLE_MAX VTK_DOUBLE_MIN r frames
    = SetOutputExtentFromFrameList VTK_DOUBLE_MAX VTK_DOUBLE_MIN r
        (List.filter DriverSpec.HasPose frames).
Proof.
  assert (Hbox :
    ExtentOfFrameList VTK_DOUBLE_MAX VTK_DOUBLE_MIN r frames
    = ExtentOfFrameList VTK_DOUBLE_MAX VTK_DOUBLE_MIN r
        (List.filter DriverSpec.HasPose frames)).
  { rewrite !ExtentOfFrameList_spec. f_equal.
    induction frames as [|frame frames IH]; [reflexivity |].
    cbn [flat_map List.filter]. unfold DriverSpec.HasPose at 1.
    unfold ReferenceCorners at 1, GetDefaultFrameTransform.
    destruct (DefaultFrameTransform frame) as [pose|] eqn:E.
    - cbn [flat_map]. unfold ReferenceCorners at 2. rewrite E.
      now rewrite IH.
    - exact IH. }
  split; [exact Hbox |].
  unfold SetOutputExtentFromFrameList. now rewrite Hbox.
Qed.

(** X24.  The mask does not reach the output: two reconstruction volumes of
    two components with the same extent, spacing, origin and intensities
    give the same reconstructed volume, whatever their masks. *)
Theorem reconstructed_volume_ignores_the_mask
  r (r0 : vtkVolumeReconstructor F) (voxels voxels0 : list (Z * Z)) :
  let volume := Filter.GetReconstructedVolume (Reconstructor r) in
  let volume0 := Filter.GetReconstructedVolume (Reconstructor r0) in
  Extent volume = Extent volume0 ->
  Spacing volume = Spacing volume0 ->
  Origin volume = Origin volume0 ->
  NumberOfScalarComponents volume = 2%nat ->
  NumberOfScalarComponents volume0 = 2%nat ->
  Scalars volume = Interleave voxels ->
  Scalars volume0 = Interleave voxels0 ->
  List.length voxels = NumberOfPoints (Extent volume) ->
  map fst voxels = map fst voxels0 ->
  GetReconstructedVolume r = GetReconstructedVolume r0.
Proof.
  intros volume volume0 He Hs Ho Hc Hc0 Hv Hv0 Hlen Hfst.
  assert (Hlen0 : List.length voxels0 = NumberOfPoints (Extent volume0)).
  { rewrite <- He, <- Hlen.
    rewrite <- (length_map fst voxels), <- (length_map fst voxels0).
    now rewrite Hfst. }
  unfold GetReconstructedVolume, vtkImageExtractComponents,
    GetScalarComponent.
  fold volume. fold volume0.
  rewrite <- Hlen, <- Hlen0, Hc, Hc0, Hv, Hv0.
  rewrite !Interleave_component0.
  now rewrite He, Hs, Ho, Hfst.
Qed.

End ClassProperties.

(** ** The test driver: file names *)

Section StringFacts.

Local Open Scope string_scope.

Lemma append_length (a b : string) :
  String.length (a ++ b) = (String.length a + String.length b)%nat.
Proof. induction a as [|c a IH]; cbn; congruence. Qed.

Lemma append_assoc (a b c : string) : (a ++ b) ++ c = a ++ (b ++ c).
Proof. induction a as [|x a IH]; cbn; congruence. Qed.

Lemma append_inv_head (s a b : string) : s ++ a = s ++ b -> a = b.
Proof.
  induction s as [|c s IH]; cbn; intros H; [exact H |].
  injection H as H. now apply IH.
Qed.

Lemma append_inv_same_length (a b x y : string) :
  String.length a = String.length b -> a ++ x = b ++ y -> a = b /\ x = y.
Proof.
  revert b. induction a as [|c a IH]; intros [|d b] Hlen H;
    try discriminate; cbn in *.
  - now split.
  - injection H as -> H. injection Hlen as Hlen.
    destruct (IH b Hlen H) as [-> ->]. now split.
Qed.

Lemma append_inv_tail (a b e : string) : a ++ e = b ++ e -> a = b.
Proof.
  intros H.
  assert (Hlen : String.length a = String.length b).
  { apply (f_equal String.length) in H. rewrite !append_length in H. lia. }
  now destruct (append_inv_same_length a b e e Hlen H).
Qed.

Lemma substring_all (s : string) : substring 0 (String.length s) s = s.
Proof. induction s as [|c s IH]; cbn; congruence. Qed.

Lemma substring_prefix (a b : string) :
  substring 0 (String.length a) (a ++ b) = a.
Proof.
  induction a as [|c a IH]; cbn; [now destruct b | congruence].
Qed.

Lemma substring_suffix (a b : string) :
  substring (String.length a) (String.length (a ++ b) - String.length a)
            (a ++ b) = b.
Proof.
  induction a as [|c a IH]; cbn [String.length append].
  - rewrite Nat.sub_0_r. apply substring_all.
  - cbn. exact IH.
Qed.

Lemma find_last_of_None (s : string) (c : ascii) :
  find_last_of s c = None <-> ~ In c (list_ascii_of_string s).
Proof.
  induction s as [|a s IH]; cbn; [tauto |].
  destruct (find_last_of s c) as [i|].
  - split; [discriminate |]. intros H. exfalso.
    assert (Hn : ~ In c (list_ascii_of_string s)) by tauto.
    apply IH in Hn. discriminate.
  - destruct (Ascii.eqb a c) eqn:E.
    + apply Ascii.eqb_eq in E. split; [discriminate | tauto].
    + apply Ascii.eqb_neq in E.
      split; [| reflexivity]. intros _ [H | H]; [congruence |].
      now apply (proj1 IH).
Qed.

Lemma find_last_of_Some (s : string) (c : ascii) (n : nat) :
  find_last_of s c = Some n ->
  exists stem rest,
    s = stem ++ String c rest /\
    String.length stem = n /\
    find_last_of rest c = None.
Proof.
  revert n. induction s as [|a s IH]; cbn; intros n H; [discriminate |].
  destruct (find_last_of s c) as [i|] eqn:E.
  - injection H as <-.
    destruct (IH i eq_refl) as (stem & rest & -> & Hlen & Hrest).
    exists (String a stem), rest. cbn. now rewrite Hlen.
  - destruct (Ascii.eqb a c) eqn:Ea; [| discriminate].
    injection H as <-. apply Ascii.eqb_eq in Ea. subst a.
    exists "", s. now cbn.
Qed.

(** The shape of a frame file name: the number goes before the last dot. *)
Lemma FrameFileName_shape (name : string) (n : nat) :
  find_last_of name "." = Some n ->
  exists stem rest,
    name = stem ++ String "." rest /\
    find_last_of rest "." = None /\
    forall frameIndex,
      FrameFileName name frameIndex
      = Some (stem ++ InsertInt 3 "0" frameIndex ++ String "." rest).
Proof.
  intros H.
  destruct (find_last_of_Some name "." n H) as (stem & rest & -> & Hlen & Hr).
  exists stem, rest. split; [reflexivity |]. split; [exact Hr |].
  intros frameIndex. unfold FrameFileName. rewrite H.
  unfold substr_to, substr_from. subst n.
  rewrite substring_prefix, substring_suffix.
  replace (String.length stem <=? String.length (stem ++ String "." rest))%nat
    with true; [reflexivity |].
  symmetry. apply Nat.leb_le. rewrite append_length. lia.
Qed.

Lemma repeat_string_length (c : ascii) (k : nat) :
  String.length (string_of_list_ascii (repeat c k)) = k.
Proof. induction k as [|k IH]; cbn; congruence. Qed.

Lemma uint_of_string_zeros (k : nat) (s : string) :
  NilEmpty.uint_of_string (string_of_list_ascii (repeat "0"%char k) ++ s)
  = option_map (Nat.iter k D0) (NilEmpty.uint_of_string s).
Proof.
  induction k as [|k IH]; cbn [repeat string_of_list_ascii append Nat.iter].
  - now destruct (NilEmpty.uint_of_string s).
  - cbn [NilEmpty.uint_of_string]. rewrite IH.
    now destruct (NilEmpty.uint_of_string s).
Qed.

Lemma of_uint_zeros (k : nat) (d : uint) :
  Nat.of_uint (Nat.iter k D0 d) = Nat.of_uint d.
Proof.
  induction k as [|k IH]; [reflexivity |].
  cbn [Nat.iter]. rewrite <- IH. reflexivity.
Qed.

(** Read as a decimal number, the field that [InsertInt] prints is the
    number printed. *)
Lemma InsertInt_reads_back (width : nat) (n : nat) :
  option_map Nat.of_uint
    (NilEmpty.uint_of_string (InsertInt width "0" n)) = Some n.
Proof.
  unfold InsertInt. rewrite uint_of_string_zeros, NilEmpty.usu.
  cbn [option_map]. now rewrite of_uint_zeros, Unsigned.of_to.
Qed.

Lemma InsertInt_inj (width : nat) (i j : nat) :
  InsertInt width "0" i = InsertInt width "0" j -> i = j.
Proof.
  intros H. assert (Hi := InsertInt_reads_back width i).
  rewrite H, InsertInt_reads_back in Hi. congruence.
Qed.

Lemma FrameFileName_inj_helper (name out : string) (i j : nat) :
  FrameFileName name i = Some out -> FrameFileName name j = Some out -> i = j.
Proof.
  intros Hi Hj.
  destruct (find_last_of name ".") as [n|] eqn:E.
  - destruct (FrameFileName_shape name n E) as (stem & rest & _ & _ & Hshape).
    rewrite Hshape in Hi, Hj. rewrite <- Hj in Hi. injection Hi as Hi.
    apply append_inv_head, append_inv_tail in Hi.
    now apply InsertInt_inj in Hi.
  - unfold FrameFileName in Hi. rewrite E in Hi. discriminate.
Qed.

Lemma frame_file_name_needs_a_dot_helper (name : string) (k : nat) :
  FrameFileName name k = None ->
  ~ In "."%char (list_ascii_of_string name).
Proof.
  intros H. apply find_last_of_None.
  destruct (find_last_of name ".") as [n|] eqn:E; [| reflexivity].
  destruct (FrameFileName_shape name n E) as (stem & rest & _ & _ & Hs).
  rewrite Hs in H. discriminate.
Qed.

End StringFacts.

Section FileNameProperties.

Local Open Scope string_scope.

(** X13.  For an output name that has a dot, the name of the file of a
    frame is the output name with the frame index put in before its last
    dot: the part up to that dot, the index in decimal, filled with zeros on
    the left to three characters, then the dot and what follows it. *)
Theorem frame_file_name_puts_index_before_last_dot
  (outputFrameFileName : string) (frameIndex : nat) :
  In "."%char (list_ascii_of_string outputFrameFileName) ->
  exists stem rest,
    outputFrameFileName = stem ++ "." ++ rest /\
    ~ In "."%char (list_ascii_of_string rest) /\
    FrameFileName outputFrameFileName frameIndex
    = Some (stem ++ InsertInt 3 "0" frameIndex ++ "." ++ rest).
Proof.
  intros Hdot.
  destruct (find_last_of outputFrameFileName ".") as [n|] eqn:E.
  - destruct (FrameFileName_shape _ n E) as (stem & rest & Hname & Hr & Hs).
    exists stem, rest. split; [exact Hname |].
    split; [now apply find_last_of_None | apply Hs].
  - apply find_last_of_None in E. contradiction.
Qed.

(** X14.  The name of a frame file cannot be made exactly when the output
    name has no dot: [substr] is then called with [npos] and throws. *)
Theorem frame_file_name_needs_a_dot
  (outputFrameFileName : string) (frameIndex : nat) :
  FrameFileName outputFrameFileName frameIndex = None <->
  ~ In "."%char (list_ascii_of_string outputFrameFileName).
Proof.
  rewrite <- find_last_of_None.
  destruct (find_last_of outputFrameFileName ".") as [n|] eqn:E.
  - destruct (FrameFileName_shape _ n E) as (stem & rest & _ & _ & Hs).
    rewrite Hs. split; discriminate.
  - unfold FrameFileName. rewrite E. cbn. tauto.
Qed.

(** X15.  Two frame indices never give the same file name. *)
Theorem frame_file_name_is_injective
  (outputFrameFileName out : string) (i j : nat) :
  FrameFileName outputFrameFileName i = Some out ->
  FrameFileName outputFrameFileName j = Some out ->
  i = j.
Proof.
  intros Hi Hj.
  destruct (find_last_of outputFrameFileName ".") as [n|] eqn:E.
  - destruct (FrameFileName_shape _ n E) as (stem & rest & _ & _ & Hshape).
    rewrite Hshape in Hi, Hj. rewrite <- Hj in Hi. injection Hi as Hi.
    apply append_inv_head, append_inv_tail in Hi.
    assert (Hread := InsertInt_reads_back 3 i).
    rewrite Hi, InsertInt_reads_back in Hread. congruence.
  - unfold FrameFileName in Hi. rewrite E in Hi. discriminate.
Qed.

(** X16.  The number field of a frame file name reads back as the frame
    index, has at least three characters, and has exactly three for the
    first thousand frames. *)
Theorem frame_number_field (frameIndex : nat) :
  option_map Nat.of_uint
    (NilEmpty.uint_of_string (InsertInt 3 "0" frameIndex))
    = Some frameIndex /\
  (3 <= String.length (InsertInt 3 "0" frameIndex))%nat /\
  ((frameIndex < 1000)%nat ->
   String.length (InsertInt 3 "0" frameIndex) = 3%nat).
Proof.
  split; [apply InsertInt_reads_back |]. split.
  - unfold InsertInt. rewrite append_length, repeat_string_length. lia.
  - intros Hlt.
    assert (Hall :
      forallb (fun i => String.length (InsertInt 3 "0" i) =? 3)%nat
              (seq 0 1000) = true) by (vm_compute; reflexivity).
    rewrite forallb_forall in Hall.
    apply Nat.eqb_eq, Hall, in_seq. lia.
Qed.

End FileNameProperties.

(** ** The test driver: the loop *)

Section DriverProperties.

#[local] Set Default Proof Using "Type".

Import DriverSpec.

Local Open Scope string_scope.

Context {F : Type} {filter : Filter.Ops F}.
Variables VTK_DOUBLE_MAX VTK_DOUBLE_MIN : double.
Variable ProbeToolType : string.
Variable ParseDoubles : string -> list double.
Variable Uninitialized : list double.

Implicit Types (r : vtkVolumeReconstructor F) (frame : TrackedFrame).

Lemma AddTrackedFrame_keeps_calibration r frame :
  ImageToToolTransform (snd (AddTrackedFrame r frame))
  = ImageToToolTransform r.
Proof.
  unfold AddTrackedFrame.
  destruct (GetImageToReferenceTransformMatrix r frame Identity) as [[|] m];
    [reflexivity |].
  now destruct (Filter.InsertSlice _ _ _).
Qed.

Lemma TakeIn_all_keeps_calibration (frames : list TrackedFrame) r :
  ImageToToolTransform (fold_left TakeIn frames r) = ImageToToolTransform r.
Proof.
  revert r. induction frames as [|frame frames IH]; intros r; [reflexivity |].
  cbn [fold_left]. rewrite IH. apply AddTrackedFrame_keeps_calibration.
Qed.

Lemma GetImageToReferenceTransformMatrix_calibration
  r (r0 : vtkVolumeReconstructor F) frame (out : vtkMatrix4x4) :
  ImageToToolTransform r = ImageToToolTransform r0 ->
  GetImageToReferenceTransformMatrix r frame out
  = GetImageToReferenceTransformMatrix r0 frame out.
Proof.
  intros H. unfold GetImageToReferenceTransformMatrix,
    GetImageToReferenceTransformMatrix_FromMatrix.
  now rewrite H.
Qed.

Lemma SetOutputExtentFromFrameList_keeps_calibration
  r (frames : list TrackedFrame) (status : PlusStatus)
  (r' : vtkVolumeReconstructor F) :
  SetOutputExtentFromFrameList VTK_DOUBLE_MAX VTK_DOUBLE_MIN r frames
    = Some (status, r') ->
  ImageToToolTransform r' = ImageToToolTransform r.
Proof.
  unfold SetOutputExtentFromFrameList, TryResetOutput.
  destruct (OutputExtentOf _ _); [| discriminate].
  destruct (Filter.ResetOutput _) as [[|] f' | f'];
    intros H; injection H as <- <-; reflexivity.
Qed.

Lemma InsertFrames_state (frames : list TrackedFrame) :
  forall r (k : nat) (name : string) r' (written : list WrittenFrame),
  InsertFrames r frames k name = Some (r', written) ->
  r' = fold_left TakeIn frames r.
Proof.
  induction frames as [|frame frames IH]; intros r k name r' written H;
    cbn [InsertFrames fold_left] in *.
  - now injection H as <- _.
  - destruct name as [|c name]; [now apply IH in H |].
    destruct (GetImageToReferenceTransformMatrix _ frame Identity)
      as [[|] m]; [now apply IH in H |].
    destruct (FrameFileName _ k); [| discriminate].
    destruct (InsertFrames _ frames (S k) _) as [[r1 w1]|] eqn:E;
      [| discriminate].
    injection H as <- _. now apply IH in E.
Qed.

Lemma InsertFrames_empty_name (frames : list TrackedFrame) :
  forall r (k : nat),
  InsertFrames r frames k "" = Some (fold_left TakeIn frames r, []).
Proof.
  induction frames as [|frame frames IH]; intros r k; [reflexivity |].
  cbn [InsertFrames fold_left]. apply IH.
Qed.

Lemma InsertFrames_written (frames : list TrackedFrame) :
  forall r (k : nat) (name : string) r' (written : list WrittenFrame),
  name <> "" ->
  InsertFrames r frames k name = Some (r', written) ->
  Forall2 (ExportOf name (ImageToToolTransform r)) written
          (PosedFrames k frames).
Proof.
  unfold PosedFrames.
  induction frames as [|frame frames IH]; intros r k name r' written Hne H;
    cbn [InsertFrames] in H.
  - injection H as _ <-. constructor.
  - cbn [List.length seq combine List.filter snd].
    destruct name as [|c name]; [congruence |].
    assert (Hcal : ImageToToolTransform (TakeIn r frame)
                   = ImageToToolTransform r)
      by apply AddTrackedFrame_keeps_calibration.
    rewrite (GetImageToReferenceTransformMatrix_calibration
               _ r frame Identity Hcal) in H.
    unfold HasPose at 1.
    unfold GetImageToReferenceTransformMatrix in H.
    destruct (GetDefaultFrameTransform frame) as [pose|] eqn:Epose.
    + destruct (FrameFileName _ k) as [out|] eqn:Ename; [| discriminate].
      destruct (InsertFrames _ frames (S k) _) as [[r1 w1]|] eqn:E;
        [| discriminate].
      injection H as _ <-. constructor.
      * repeat split; cbn; auto. exists pose. now split.
      * rewrite <- Hcal. eapply IH; [exact Hne | exact E].
    + rewrite <- Hcal. eapply IH; [exact Hne | exact H].
Qed.

(** X17.  When the loop over the frames runs to its end, the reconstructor
    is the one that [AddTrackedFrame] leaves after every frame of the list
    in order, whether or not files are written, and its calibration is the
    one it started with.  With an empty output name no file is written;
    otherwise the files written are, in order, one for each frame that has
    a pose: the frame itself, named by the index the frame has in the whole
    list, with the transform pose * calibration. *)
Theorem InsertFrames_inserts_all_and_exports_posed
  r (frames : list TrackedFrame) (name : string)
  (r' : vtkVolumeReconstructor F) (written : list WrittenFrame) :
  InsertFrames r frames 0 name = Some (r', written) ->
  r' = fold_left TakeIn frames r /\
  ImageToToolTransform r' = ImageToToolTransform r /\
  (name = "" -> written = []) /\
  (name <> "" ->
   Forall2 (ExportOf name (ImageToToolTransform r)) written
           (PosedFrames 0 frames)).
Proof.
  intros H. assert (Hstate := InsertFrames_state _ _ _ _ _ _ H).
  split; [exact Hstate |]. split.
  - rewrite Hstate. apply TakeIn_all_keeps_calibration.
  - split.
    + intros ->. rewrite InsertFrames_empty_name in H. now injection H as _ <-.
    + intros Hne. eapply InsertFrames_written; eassumption.
Qed.

Lemma PosedFrames_indices_NoDup (k : nat) (frames : list TrackedFrame) :
  NoDup (map fst (PosedFrames k frames)).
Proof.
  unfold PosedFrames.
  assert (Hall : NoDup (map fst (combine (seq k (List.length frames)) frames))).
  { replace (map fst (combine (seq k (List.length frames)) frames))
      with (seq k (List.length frames)); [apply seq_NoDup |].
    revert k. induction frames as [|frame frames IH]; intros k;
      [reflexivity |].
    cbn. f_equal. apply IH. }
  induction (combine (seq k (List.length frames)) frames) as [|p l IH];
    [constructor |].
  cbn [map] in Hall. cbn [List.filter].
  inversion Hall as [|x xs Hnin Hnd]. clear Hall. subst x xs.
  destruct (HasPose (snd p)); [| now apply IH].
  cbn [map]. constructor; [| now apply IH].
  intros Hin. apply Hnin.
  apply in_map_iff in Hin. destruct Hin as (q & Hq & Hin).
  apply filter_In in Hin. destruct Hin as [Hin _].
  apply in_map_iff. exists q. split; assumption.
Qed.

Lemma Forall2_In_left {A B : Type} (R : A -> B -> Prop)
  (l : list A) (l' : list B) (a : A) :
  Forall2 R l l' -> In a l -> exists b, In b l' /\ R a b.
Proof.
  intros H2. induction H2 as [|x y l l' Hxy H2 IH]; intros Hin;
    [contradiction |].
  destruct Hin as [<- | Hin].
  - exists y. split; [now left | exact Hxy].
  - destruct (IH Hin) as (b & Hb & Hab). exists b. split; [now right | exact Hab].
Qed.

Lemma Forall2_NoDup {A B C D : Type} (R : A -> B -> Prop)
  (f : A -> C) (g : B -> D) (l : list A) (l' : list B) :
  (forall a b x y, R a x -> R b y -> f a = f b -> g x = g y) ->
  Forall2 R l l' -> NoDup (map g l') -> NoDup (map f l).
Proof.
  intros Hinj H2. induction H2 as [|a x l l' Hax H2 IH]; intros Hnd;
    [constructor |].
  cbn [map] in Hnd |- *. inversion Hnd as [|y ys Hnin Hnd']. subst y ys.
  constructor; [| now apply IH].
  intros Hin. apply Hnin.
  apply in_map_iff in Hin. destruct Hin as (b & Hb & Hin).
  destruct (Forall2_In_left R l l' b H2 Hin) as (y & Hy & Hby).
  apply in_map_iff. exists y. split; [| exact Hy].
  symmetry. now apply (Hinj a b x y).
Qed.

(** X18.  The files of one run have different names: no export overwrites
    another. *)
Theorem InsertFrames_names_are_distinct
  r (frames : list TrackedFrame) (name : string)
  (r' : vtkVolumeReconstructor F) (written : list WrittenFrame) :
  InsertFrames r frames 0 name = Some (r', written) ->
  NoDup (map WrittenName written).
Proof.
  intros H. destruct name as [|c name].
  - rewrite InsertFrames_empty_name in H. injection H as _ <-. constructor.
  - eapply (Forall2_NoDup
              (ExportOf (String c name) (ImageToToolTransform r))
              WrittenName fst).
    + unfold ExportOf. intros a b x y (_ & Ha & _) (_ & Hb & _) Hab.
      rewrite Hab in Ha. eapply FrameFileName_inj_helper; eassumption.
    + eapply InsertFrames_written; [discriminate | exact H].
    + apply PosedFrames_indices_NoDup.
Qed.

Lemma InsertFrames_fails (frames : list TrackedFrame) :
  forall r (k : nat) (name : string),
  InsertFrames r frames k name = None <->
  name <> "" /\
  ~ In "."%char (list_ascii_of_string name) /\
  exists frame, In frame frames /\ GetDefaultFrameTransform frame <> None.
Proof.
  induction frames as [|frame frames IH]; intros r k name;
    cbn [InsertFrames].
  - split; [discriminate |]. intros (_ & _ & frame & [] & _).
  - destruct name as [|c name].
    + rewrite IH. split; intros (Hne & _); congruence.
    + unfold GetImageToReferenceTransformMatrix.
      destruct (GetDefaultFrameTransform frame) as [pose|] eqn:Epose.
      * destruct (FrameFileName (String c name) k) as [out|] eqn:Ename.
        -- assert (Hdot : In "."%char (list_ascii_of_string (String c name))).
           { destruct (find_last_of (String c name) ".") as [n|] eqn:E.
             - destruct (find_last_of_None (String c name) ".") as [_ Hn].
               destruct (in_dec ascii_dec "."%char
                           (list_ascii_of_string (String c name)))
                 as [Hin | Hnin]; [exact Hin |].
               rewrite (Hn Hnin) in E. discriminate.
             - unfold FrameFileName in Ename. rewrite E in Ename.
               discriminate. }
           destruct (InsertFrames _ frames (S k) _) as [[r1 w1]|] eqn:E.
           ++ split; [discriminate |]. intros (_ & Hnd & _). contradiction.
           ++ split; [| reflexivity]. intros _.
              apply IH in E. destruct E as (_ & Hnd & _). contradiction.
        -- split; [| reflexivity]. intros _.
           split; [discriminate |]. split.
           ++ now apply (frame_file_name_needs_a_dot_helper _ k).
           ++ exists frame. split; [now left | congruence].
      * rewrite IH. split; intros (Hne & Hnd & frame' & Hin & Hp);
          (split; [exact Hne |]); (split; [exact Hnd |]); exists frame'.
        -- split; [now right | exact Hp].
        -- destruct Hin as [<- | Hin]; [congruence | now split].
Qed.

(** X19.  The loop over the frames ends the program without a result
    exactly when frame files are asked for, the output name has no dot, and
    some frame has a pose; in particular it always runs to its end when no
    frame files are asked for. *)
Theorem InsertFrames_runs_to_the_end_unless
  r (frames : list TrackedFrame) (name : string) :
  (InsertFrames r frames 0 name = None <->
   name <> "" /\
   ~ In "."%char (list_ascii_of_string name) /\
   exists frame, In frame frames /\ GetDefaultFrameTransform frame <> None) /\
  InsertFrames r frames 0 "" = Some (fold_left TakeIn frames r, []).
Proof.
  split; [apply InsertFrames_fails | apply InsertFrames_empty_name].
Qed.

Lemma ReadConfiguration_failure_keeps_calibration
  r (config : vtkXMLDataElement) :
  fst (ReadConfiguration ProbeToolType ParseDoubles Uninitialized r config)
    = PLUS_FAIL ->
  ImageToToolTransform
    (snd (ReadConfiguration ProbeToolType ParseDoubles Uninitialized r config))
  = ImageToToolTransform r.
Proof.
  unfold ReadConfiguration.
  destruct (FindNestedElementWithName config _) as [dc|]; [| reflexivity].
  destruct (FindNestedElementWithName dc _) as [tracker|]; [| reflexivity].
  destruct (FindNestedElementWithNameAndAttribute tracker _ _ _) as [tool|];
    [| reflexivity].
  destruct (FindNestedElementWithName tool _) as [calibration|];
    [| reflexivity].
  destruct (GetVectorAttribute _ _ _ _ _) as [[|count] aImageToTool];
    [reflexivity | discriminate].
Qed.

(** X20.  Writing the frame files has no effect on the reconstruction: a
    run that writes them and ends gives the volume that the run without
    frame files gives. *)
Theorem Reconstruct_volume_does_not_depend_on_export
  (f : F) (config : vtkXMLDataElement) (frames : list TrackedFrame)
  (name : string) (written : list WrittenFrame) (volume : vtkImageData) :
  Reconstruct VTK_DOUBLE_MAX VTK_DOUBLE_MIN ProbeToolType ParseDoubles
    Uninitialized f config frames name = Some (written, volume) ->
  Reconstruct VTK_DOUBLE_MAX VTK_DOUBLE_MIN ProbeToolType ParseDoubles
    Uninitialized f config frames "" = Some ([], volume).
Proof.
  unfold Reconstruct.
  destruct (SetOutputExtentFromFrameList _ _ _ _) as [[status r1]|];
    [| discriminate].
  rewrite InsertFrames_empty_name.
  destruct (InsertFrames r1 frames 0 name) as [[r2 w2]|] eqn:E;
    [| discriminate].
  apply InsertFrames_state in E. subst r2.
  intros H. now injection H as _ <-.
Qed.

(** X21.  No status stops the run, so the frames are exported under
    whatever calibration [ReadConfiguration] left: when the run ends, the
    files are the exports of the frames that have a pose under that
    calibration, and when the configuration could not be read that
    calibration is the identity of the new reconstructor, so that a pose of
    sixteen numbers is written as it is. *)
Theorem Reconstruct_exports_under_the_calibration_read
  (f : F) (config : vtkXMLDataElement) (frames : list TrackedFrame)
  (name : string) (written : list WrittenFrame) (volume : vtkImageData) :
  let read :=
    ReadConfiguration ProbeToolType ParseDoubles Uninitialized (New f)
      config in
  name <> "" ->
  Reconstruct VTK_DOUBLE_MAX VTK_DOUBLE_MIN ProbeToolType ParseDoubles
    Uninitialized f config frames name = Some (written, volume) ->
  Forall2 (ExportOf name (ImageToToolTransform (snd read))) written
          (PosedFrames 0 frames) /\
  (fst read = PLUS_FAIL ->
   ImageToToolTransform (snd read) = Identity /\
   forall w toolToReference,
     In w written ->
     GetDefaultFrameTransform (WrittenData w) = Some toolToReference ->
     List.length toolToReference = 16%nat ->
     WrittenTransform w = toolToReference).
Proof.
  intros read Hne. unfold Reconstruct. fold read.
  destruct (SetOutputExtentFromFrameList _ _ _ _) as [[status r1]|] eqn:E1;
    [| discriminate].
  apply SetOutputExtentFromFrameList_keeps_calibration in E1.
  destruct (InsertFrames r1 frames 0 name) as [[r2 w2]|] eqn:E2;
    [| discriminate].
  intros H. injection H as <- _.
  assert (Hexp := InsertFrames_written _ _ _ _ _ _ Hne E2).
  rewrite E1 in Hexp. split; [exact Hexp |].
  intros Hfail.
  assert (Hid : ImageToToolTransform (snd read) = Identity)
    by (subst read; now rewrite ReadConfiguration_failure_keeps_calibration).
  split; [exact Hid |].
  intros w T Hw Hpose Hlen.
  destruct (Forall2_In_left _ _ _ _ Hexp Hw) as (p & _ & Hdata & _ & Hx).
  destruct Hx as (T' & Hp' & ->).
  rewrite Hdata in Hpose. rewrite Hp' in Hpose. injection Hpose as ->.
  rewrite Hid.
  rewrite <- (app_nil_r T) at 1.
  rewrite DeepCopy_16 by assumption.
  now apply Multiply4x4_Identity_r.
Qed.

End DriverProperties.

(** ** Concrete runs *)

Module Runs.

Import Lab.

(** The example of the specification: one frame whose corners span
    [0,10] x [0,20] x [0,0], spacing (1,1,1). *)
Example single_frame_extent :
  ExtentOfFrameList VTK_DOUBLE_MAX VTK_DOUBLE_MIN UnitReconstructor
    [FrameAtOrigin]
  = [0; Double.of_int 10; 0; Double.of_int 20; 0; 0] /\
  option_map
    (fun res =>
       (fst res,
        OutputExtent (Reconstructor (snd res)),
        OutputOrigin (Reconstructor (snd res))))
    (SetOutputExtentFromFrameList VTK_DOUBLE_MAX VTK_DOUBLE_MIN
       UnitReconstructor [FrameAtOrigin])
  = Some (PLUS_SUCCESS, [0; 10; 0; 20; 0; 0]%Z, [0; 0; 0]).
Proof. split; vm_compute; reflexivity. Qed.

Lemma output_extent_is_floor_of_box_witness :
  (exists frame,
     In frame [FrameAtOrigin] /\ GetDefaultFrameTransform frame <> None) /\
  (exists f,
     SetOutputExtentFromFrameList VTK_DOUBLE_MAX VTK_DOUBLE_MIN
       UnitReconstructor [FrameAtOrigin]
     = Some (TryResetOutput UnitReconstructor f)) /\
  SetOutputExtentFromFrameList VTK_DOUBLE_MAX VTK_DOUBLE_MIN
    UnitReconstructor [FrameAtOrigin]
  = Some
      (TryResetOutput UnitReconstructor
         (Filter.SetOutputOrigin 0 0 0
            (Filter.SetOutputExtent [0; 10; 0; 20; 0; 0]%Z
               (Reconstructor UnitReconstructor)))).
Proof.
  assert (Hframe : exists frame,
            In frame [FrameAtOrigin] /\
            GetDefaultFrameTransform frame <> None).
  { exists FrameAtOrigin. split; [now left | discriminate]. }
  destruct (output_extent_is_floor_of_box VTK_DOUBLE_MAX VTK_DOUBLE_MIN
              UnitReconstructor [FrameAtOrigin]) as [Hfloor Hexample].
  split; [exact Hframe |]. split.
  - eexists. apply (Hfloor Hframe).
    + intros axis Haxis.
      destruct axis as [|[|[|axis]]]; try lia; reflexivity.
    + intros axis Haxis.
      destruct axis as [|[|[|axis]]]; try lia; vm_compute; discriminate.
    + intros axis Haxis.
      destruct axis as [|[|[|axis]]]; try lia; vm_compute; discriminate.
  - apply Hexample; [exact (proj1 single_frame_extent) | reflexivity].
Defined.

Lemma image_to_reference_is_pose_times_calibration_witness :
  GetDefaultFrameTransform FrameShifted = Some ShiftX /\
  exists m,
    GetImageToReferenceTransformMatrix
      ScalingReconstructor FrameShifted Identity = (PLUS_SUCCESS, m).
Proof.
  split; [reflexivity |].
  destruct (image_to_reference_is_pose_times_calibration
              ScalingReconstructor FrameShifted ShiftX Identity
              eq_refl) as (m & Hm & _).
  exists m. exact Hm.
Defined.


Lemma frame_without_pose_is_skipped_witness :
  GetDefaultFrameTransform FrameWithoutPose = None /\
  AddTrackedFrame UnitReconstructor FrameWithoutPose
    = (PLUS_FAIL, UnitReconstructor) /\
  ExtentOfFrameList VTK_DOUBLE_MAX VTK_DOUBLE_MIN UnitReconstructor
      ([FrameAtOrigin] ++ FrameWithoutPose :: [FrameShifted])
    = ExtentOfFrameList VTK_DOUBLE_MAX VTK_DOUBLE_MIN UnitReconstructor
        ([FrameAtOrigin] ++ [FrameShifted]).
Proof.
  split; [reflexivity |].
  destruct (frame_without_pose_is_skipped VTK_DOUBLE_MAX VTK_DOUBLE_MIN
              UnitReconstructor FrameWithoutPose Identity
              [FrameAtOrigin] [FrameShifted] eq_refl)
    as (_ & Hadd & Hbox & _).
  split; assumption.
Defined.

(** A frame with a pose does reach [InsertSlice]: the filter counts it. *)
Example frame_with_pose_is_inserted :
  AddTrackedFrame UnitReconstructor FrameAtOrigin
  = (PLUS_SUCCESS,
     WithReconstructor UnitReconstructor
       {| OutputSpacing := [1; 1; 1]; OutputExtent := [0; 0; 0; 0; 0; 0]%Z;
          OutputOrigin := [0; 0; 0]; Volume := EmptyVolume;
          InsertedSlices := 1 |}).
Proof. reflexivity. Qed.

Lemma empty_extent_is_left_to_ResetOutput_witness :
  Forall (fun frame => GetDefaultFrameTransform frame = None)
    [FrameWithoutPose] /\
  ExtentOfFrameList VTK_DOUBLE_MAX VTK_DOUBLE_MIN CoarseReconstructor
    [FrameWithoutPose]
  = [VTK_DOUBLE_MAX; VTK_DOUBLE_MIN;
     VTK_DOUBLE_MAX; VTK_DOUBLE_MIN;
     VTK_DOUBLE_MAX; VTK_DOUBLE_MIN].
Proof.
  assert (H : Forall (fun frame => GetDefaultFrameTransform frame = None)
                [FrameWithoutPose])
    by (repeat constructor).
  split; [exact H |].
  pose proof (empty_extent_is_left_to_ResetOutput
                VTK_DOUBLE_MAX VTK_DOUBLE_MIN CoarseReconstructor
                [FrameWithoutPose]) as Hempty.
  cbv zeta in Hempty. specialize (Hempty H).
  destruct Hempty as [Hbox _]. exact Hbox.
Defined.

(** C3, as stated, fails: no frame of the list has a pose, and
    [SetOutputExtentFromFrameList] reports success, not failure, having set
    an extent of negative size. *)
Lemma empty_extent_is_reported_as_success :
  Forall (fun frame => GetDefaultFrameTransform frame = None)
    [FrameWithoutPose] /\
  option_map
    (fun res => (fst res, OutputExtent (Reconstructor (snd res))))
    (SetOutputExtentFromFrameList VTK_DOUBLE_MAX VTK_DOUBLE_MIN
       CoarseReconstructor [FrameWithoutPose])
  = Some (PLUS_SUCCESS, [0; -2; 0; -2; 0; -2]%Z) /\
  option_map fst
    (SetOutputExtentFromFrameList VTK_DOUBLE_MAX VTK_DOUBLE_MIN
       CoarseReconstructor [FrameWithoutPose])
  <> Some PLUS_FAIL.
Proof.
  split; [repeat constructor |].
  split; [vm_compute; reflexivity | vm_compute; discriminate].
Qed.

(** With a spacing of one the empty box leads to a conversion that has no
    defined value. *)
Example empty_extent_unit_spacing :
  SetOutputExtentFromFrameList VTK_DOUBLE_MAX VTK_DOUBLE_MIN
    UnitReconstructor [] = None.
Proof. vm_compute. reflexivity. Qed.

Lemma allocation_failure_is_reported_witness :
  OutputExtentOf
    (ExtentOfFrameList VTK_DOUBLE_MAX VTK_DOUBLE_MIN UnitReconstructor
       [FrameAtOrigin; FrameFarAway])
    (Filter.GetOutputSpacing (Reconstructor UnitReconstructor))
  = Some [0; 10; 0; 20; 0; 1000]%Z /\
  option_map fst
    (SetOutputExtentFromFrameList VTK_DOUBLE_MAX VTK_DOUBLE_MIN
       UnitReconstructor [FrameAtOrigin; FrameFarAway])
  = Some PLUS_FAIL.
Proof.
  assert (Hextent :
    OutputExtentOf
      (ExtentOfFrameList VTK_DOUBLE_MAX VTK_DOUBLE_MIN UnitReconstructor
         [FrameAtOrigin; FrameFarAway])
      (Filter.GetOutputSpacing (Reconstructor UnitReconstructor))
    = Some [0; 10; 0; 20; 0; 1000]%Z)
    by (vm_compute; reflexivity).
  split; [exact Hextent |].
  destruct (allocation_failure_is_reported VTK_DOUBLE_MAX VTK_DOUBLE_MIN
              UnitReconstructor [FrameAtOrigin; FrameFarAway]
              [0; 10; 0; 20; 0; 1000]%Z _ Hextent (or_introl eq_refl))
    as (r' & Hr' & _).
  rewrite Hr'. reflexivity.
Defined.

Lemma reconstructed_volume_is_intensity_channel_witness :
  Scalars (Filter.GetReconstructedVolume (Reconstructor FilledReconstructor))
    = Spec.Interleave TwoVoxels /\
  GetReconstructedVolume FilledReconstructor
  = (PLUS_SUCCESS,
     {| Extent := [0; 1; 0; 0; 0; 0]%Z; Spacing := [1; 1; 1];
        Origin := [0; 0; 0]; NumberOfScalarComponents := 1;
        Scalars := [7; 9]%Z |}).
Proof.
  split; [reflexivity |].
  exact (reconstructed_volume_is_intensity_channel
           FilledReconstructor TwoVoxels eq_refl eq_refl eq_refl).
Defined.

Lemma extent_estimation_is_order_insensitive_witness :
  Permutation [FrameAtOrigin; FrameFarAway] [FrameFarAway; FrameAtOrigin] /\
  SetOutputExtentFromFrameList VTK_DOUBLE_MAX VTK_DOUBLE_MIN
    UnitReconstructor [FrameAtOrigin; FrameFarAway]
  = SetOutputExtentFromFrameList VTK_DOUBLE_MAX VTK_DOUBLE_MIN
      UnitReconstructor [FrameFarAway; FrameAtOrigin].
Proof.
  split; [apply perm_swap |].
  exact (proj2 (extent_estimation_is_order_insensitive
                  VTK_DOUBLE_MAX VTK_DOUBLE_MIN UnitReconstructor
                  [FrameAtOrigin; FrameFarAway]
                  [FrameFarAway; FrameAtOrigin]
                  (perm_swap _ _ _))).
Defined.

Lemma AddImageToExtent_widens_witness :
  List.length [0; 1; 0; 1; 0; 1] = 6%nat /\
  load (AddImageToExtent Image11x21 Identity [0; 1; 0; 1; 0; 1]) (1 * 2)
    <= load [0; 1; 0; 1; 0; 1] (1 * 2) /\
  load [0; 1; 0; 1; 0; 1] (1 * 2 + 1)
    <= load (AddImageToExtent Image11x21 Identity [0; 1; 0; 1; 0; 1])
         (1 * 2 + 1).
Proof.
  split; [reflexivity |].
  apply (AddImageToExtent_widens Image11x21 Identity [0; 1; 0; 1; 0; 1] 1);
    [reflexivity | lia].
Defined.

Lemma ReadConfiguration_changes_calibration_on_success_only_witness :
  Spec.MissingElement ProbeToolType ConfigWithoutTracker /\
  fst (ReadConfiguration ProbeToolType ParseDoubles Uninitialized
         ScalingReconstructor ConfigWithoutTracker) = PLUS_FAIL /\
  ImageToToolTransform
    (snd (ReadConfiguration ProbeToolType ParseDoubles Uninitialized
            ScalingReconstructor ConfigWithoutTracker)) = Scale2.
Proof.
  assert (H : Spec.MissingElement ProbeToolType ConfigWithoutTracker).
  { eapply Spec.NoTracker; reflexivity. }
  split; [exact H |].
  exact (proj1 (ReadConfiguration_changes_calibration_on_success_only
                  ProbeToolType ParseDoubles Uninitialized
                  ScalingReconstructor ConfigWithoutTracker) H).
Defined.

(** A complete configuration replaces the calibration. *)
Example complete_configuration_is_read :
  ReadConfiguration ProbeToolType ParseDoubles Uninitialized
    ScalingReconstructor CompleteConfig
  = (PLUS_SUCCESS,
     {| Reconstructor := Reconstructor ScalingReconstructor;
        ImageToToolTransform := Identity |}).
Proof. reflexivity. Qed.

(** A [MatrixValue] of three numbers is present, and passes the guard: the
    count is three.  The transform is then set from an array of which
    thirteen elements were never written. *)
Example short_matrix_is_accepted :
  ReadConfiguration ProbeToolType ParseDoubles Uninitialized
    ScalingReconstructor ShortMatrixConfig
  = (PLUS_SUCCESS,
     {| Reconstructor := Reconstructor ScalingReconstructor;
        ImageToToolTransform := [1; 0; 0] ++ skipn 3 Uninitialized |}).
Proof. reflexivity. Qed.

(** The same run through the general statement: the status is success, the
    element of index 3 is the one the local array held, and the calibration
    is no longer the one the reconstructor had. *)
Lemma ReadConfiguration_accepts_a_short_matrix_witness :
  (0 < List.length (ParseDoubles ShortMatrixValue) < 16)%nat /\
  fst (ReadConfiguration ProbeToolType ParseDoubles Uninitialized
         ScalingReconstructor ShortMatrixConfig) = PLUS_SUCCESS /\
  load (ImageToToolTransform
          (snd (ReadConfiguration ProbeToolType ParseDoubles Uninitialized
                  ScalingReconstructor ShortMatrixConfig))) 3
  = load Uninitialized 3 /\
  ImageToToolTransform
    (snd (ReadConfiguration ProbeToolType ParseDoubles Uninitialized
            ScalingReconstructor ShortMatrixConfig))
  <> ImageToToolTransform ScalingReconstructor.
Proof.
  assert (H : (0 < List.length (ParseDoubles ShortMatrixValue) < 16)%nat)
    by (vm_compute; lia).
  split; [exact H |].
  destruct (ReadConfiguration_accepts_a_short_matrix
              ProbeToolType ParseDoubles Uninitialized ScalingReconstructor
              ShortMatrixConfig _ _ _ _ ShortMatrixValue
              eq_refl eq_refl eq_refl eq_refl eq_refl H) as [Hstatus Hload].
  split; [exact Hstatus |].
  split; [exact (Hload 3%nat ltac:(lia)) |].
  vm_compute. discriminate.
Defined.

(** *** Rounding

    [Double.round] on numbers whose doubles are known: [0.1] is
    [0x1.999999999999ap-4]; [2^53 + 1] and [2^53 + 3] are half way between
    two doubles and go to the even one; below [2^-1022] the spacing of the
    doubles stays [2^-1074]; [2^1024 - 2^970] is the first number that
    rounds beyond [DBL_MAX]. *)
Example round_tenth :
  this (Double.round (Q2Qc (1 # 10)))
  = (3602879701896397 # 36028797018963968)%Q.
Proof. vm_compute. reflexivity. Qed.

Example round_ties_to_even :
  this (Double.round (Double.of_int (2 ^ 53 + 1))) = inject_Z (2 ^ 53) /\
  this (Double.round (Double.of_int (2 ^ 53 + 3))) = inject_Z (2 ^ 53 + 4).
Proof. split; vm_compute; reflexivity. Qed.

Example round_subnormal :
  Double.round (Double.pow2 (-1075)) = 0 /\
  Double.round (Double.of_int 3 * Double.pow2 (-1075)) = Double.pow2 (-1073) /\
  Double.round (Double.pow2 (-1074)) = Double.pow2 (-1074).
Proof. repeat split; apply Qc_is_canon; vm_compute; reflexivity. Qed.

Example round_overflow :
  Double.rounded (Double.of_int (2 ^ 1024 - 2 ^ 970 - 1))
    = Some Double.DBL_MAX /\
  Double.rounded (Double.of_int (2 ^ 1024 - 2 ^ 970)) = None.
Proof. split; vm_compute; reflexivity. Qed.

End Runs.

(** ** More concrete runs *)

Module MoreRuns.

Import Lab Lab2 DriverSpec.

Local Open Scope string_scope.

Lemma AddImageToExtent_idempotent_witness :
  List.length Box = 6%nat /\
  AddImageToExtent Image11x21 ShiftX (AddImageToExtent Image11x21 ShiftX Box)
  = AddImageToExtent Image11x21 ShiftX Box.
Proof.
  split; [reflexivity |].
  exact (AddImageToExtent_idempotent Image11x21 ShiftX Box eq_refl).
Defined.

Lemma AddImageToExtent_commutes_witness :
  List.length Box = 6%nat /\
  AddImageToExtent Image11x21 ShiftX (AddImageToExtent Image11x21 Scale2 Box)
  = AddImageToExtent Image11x21 Scale2 (AddImageToExtent Image11x21 ShiftX Box).
Proof.
  split; [reflexivity |].
  exact (AddImageToExtent_commutes
           Image11x21 Image11x21 ShiftX Scale2 Box eq_refl).
Defined.

(** The corner (10, 20) of the image, shifted by one along x. *)
Lemma AddImageToExtent_contains_corners_witness :
  In [Double.of_int 10; Double.of_int 20; 0; 1] (corners_ImagePix Image11x21) /\
  MultiplyPoint ShiftX [Double.of_int 10; Double.of_int 20; 0; 1]
    = [Double.of_int 11; Double.of_int 20; 0; 1] /\
  Double.ltb (Double.of_int 11)
    (load (AddImageToExtent Image11x21 ShiftX Box) (0 * 2)) = false /\
  Double.gtb (Double.of_int 11)
    (load (AddImageToExtent Image11x21 ShiftX Box) (0 * 2 + 1)) = false.
Proof.
  assert (Hc : In [Double.of_int 10; Double.of_int 20; 0; 1]
                 (corners_ImagePix Image11x21))
    by (cbn; auto).
  split; [exact Hc |]. split; [vm_compute; reflexivity |].
  apply (AddImageToExtent_contains_corners Image11x21 ShiftX Box 0
           [Double.of_int 10; Double.of_int 20; 0; 1]);
    [reflexivity | lia | exact Hc].
Defined.

(** The box of the image itself is a fixed point. *)
Lemma AddImageToExtent_fixed_witness :
  AddImageToExtent Image11x21 Identity
    [0; Double.of_int 10; 0; Double.of_int 20; 0; 0]
  = [0; Double.of_int 10; 0; Double.of_int 20; 0; 0].
Proof.
  apply AddImageToExtent_fixed; [reflexivity |].
  intros corner axis Hc Haxis.
  destruct axis as [|[|[|axis]]]; try lia;
    cbn in Hc; decompose [or] Hc; try contradiction; subst corner;
    split; vm_compute; discriminate.
Defined.

Lemma extent_depends_on_the_set_of_frames_witness :
  (forall frame,
     In frame [FrameAtOrigin; FrameAtOrigin; FrameShifted] <->
     In frame [FrameShifted; FrameAtOrigin]) /\
  SetOutputExtentFromFrameList VTK_DOUBLE_MAX VTK_DOUBLE_MIN
    UnitReconstructor [FrameAtOrigin; FrameAtOrigin; FrameShifted]
  = SetOutputExtentFromFrameList VTK_DOUBLE_MAX VTK_DOUBLE_MIN
      UnitReconstructor [FrameShifted; FrameAtOrigin].
Proof.
  assert (H : forall frame,
            In frame [FrameAtOrigin; FrameAtOrigin; FrameShifted] <->
            In frame [FrameShifted; FrameAtOrigin])
    by (intros frame; cbn [In]; tauto).
  split; [exact H |].
  exact (proj2 (extent_depends_on_the_set_of_frames
                  VTK_DOUBLE_MAX VTK_DOUBLE_MIN UnitReconstructor _ _ H)).
Defined.

Lemma more_frames_widen_the_extent_witness :
  load (ExtentOfFrameList VTK_DOUBLE_MAX VTK_DOUBLE_MIN UnitReconstructor
          ([FrameAtOrigin] ++ [FrameFarAway])) (2 * 2)
  <= load (ExtentOfFrameList VTK_DOUBLE_MAX VTK_DOUBLE_MIN UnitReconstructor
             [FrameAtOrigin]) (2 * 2).
Proof.
  apply (more_frames_widen_the_extent VTK_DOUBLE_MAX VTK_DOUBLE_MIN
           UnitReconstructor [FrameAtOrigin] [FrameFarAway] 2).
  lia.
Defined.

Lemma upper_index_has_the_sign_of_the_width_witness :
  OutputExtentOf Box [Tenth; Tenth; Tenth] = Some [0; 10; 0; 10; 0; 10]%Z /\
  (0 <= 10)%Z.
Proof.
  assert (H : OutputExtentOf Box [Tenth; Tenth; Tenth]
              = Some [0; 10; 0; 10; 0; 10]%Z)
    by (vm_compute; reflexivity).
  split; [exact H |].
  apply (upper_index_has_the_sign_of_the_width
           Box [Tenth; Tenth; Tenth] [0; 10; 0; 10; 0; 10]%Z 0 H);
    [lia | reflexivity | vm_compute; discriminate].
Defined.

(** A box of width one and the spacing [0.1]: the quotient the division
    gives is 10, and the upper index is 10.  The exact quotient of the two
    doubles is below 10, the double [0.1] being above one tenth. *)
Example tenth_spacing_extent :
  ExtentOfFrameList VTK_DOUBLE_MAX VTK_DOUBLE_MIN TenthReconstructor
    [SmallFrame] = [0; 1; 0; 1; 0; 0] /\
  option_map
    (fun res => (fst res, OutputExtent (Reconstructor (snd res))))
    (SetOutputExtentFromFrameList VTK_DOUBLE_MAX VTK_DOUBLE_MIN
       TenthReconstructor [SmallFrame])
  = Some (PLUS_SUCCESS, [0; 10; 0; 10; 0; 0]%Z) /\
  Double.round (1 / Tenth) = Double.of_int 10 /\
  Double.floor (1 / Tenth) = 9%Z.
Proof.
  split; [vm_compute; reflexivity |].
  split; [vm_compute; reflexivity |].
  split; [apply Qc_is_canon |]; vm_compute; reflexivity.
Qed.

(** No frame with a pose and a spacing above the distance of the sentinels:
    every quotient is between -1 and 0, and the extent is the single voxel
    [0,0,0,0,0,0]. *)
Example empty_extent_of_one_voxel :
  option_map
    (fun res => (fst res, OutputExtent (Reconstructor (snd res))))
    (SetOutputExtentFromFrameList VTK_DOUBLE_MAX VTK_DOUBLE_MIN
       VeryCoarseReconstructor [FrameWithoutPose])
  = Some (PLUS_SUCCESS, [0; 0; 0; 0; 0; 0]%Z).
Proof. vm_compute. reflexivity. Qed.

Lemma SetOutputExtentFromFrameList_outcome_witness :
  exists status r',
    SetOutputExtentFromFrameList VTK_DOUBLE_MAX VTK_DOUBLE_MIN
      ScalingReconstructor [FrameAtOrigin] = Some (status, r') /\
    ImageToToolTransform r' = Scale2.
Proof.
  destruct (SetOutputExtentFromFrameList VTK_DOUBLE_MAX VTK_DOUBLE_MIN
              ScalingReconstructor [FrameAtOrigin])
    as [[status r']|] eqn:E.
  - exists status, r'. split; [reflexivity |].
    exact (proj1 (SetOutputExtentFromFrameList_outcome
                    VTK_DOUBLE_MAX VTK_DOUBLE_MIN ScalingReconstructor
                    [FrameAtOrigin] status r' E)).
  - vm_compute in E. discriminate E.
Defined.

Lemma ReadConfiguration_reads_sixteen_numbers_witness :
  (16 <= List.length (ParseDoubles IdentityMatrixValue))%nat /\
  ReadConfiguration ProbeToolType ParseDoubles Uninitialized
    ScalingReconstructor CompleteConfig
  = (PLUS_SUCCESS,
     {| Reconstructor := Reconstructor ScalingReconstructor;
        ImageToToolTransform := Identity |}).
Proof.
  assert (H : (16 <= List.length (ParseDoubles IdentityMatrixValue))%nat)
    by (vm_compute; lia).
  split; [exact H |].
  exact (ReadConfiguration_reads_sixteen_numbers
           ProbeToolType ParseDoubles Uninitialized ScalingReconstructor
           CompleteConfig _ _ _ _ IdentityMatrixValue
           eq_refl eq_refl eq_refl eq_refl eq_refl H).
Defined.

Lemma identity_transforms_witness :
  GetDefaultFrameTransform FrameShifted = Some ShiftX /\
  GetImageToReferenceTransformMatrix (New (NewFilter [1; 1; 1]))
    FrameShifted Identity = (PLUS_SUCCESS, ShiftX).
Proof.
  split; [reflexivity |].
  exact (proj1 (identity_transforms (NewFilter [1; 1; 1]) UnitReconstructor
                  FrameShifted ShiftX Identity) eq_refl eq_refl).
Defined.

Lemma reconstructed_volume_ignores_the_mask_witness :
  map fst TwoVoxels = map fst OtherMasks /\
  GetReconstructedVolume FilledReconstructor
  = GetReconstructedVolume OtherMaskReconstructor.
Proof.
  split; [reflexivity |].
  exact (reconstructed_volume_ignores_the_mask
           FilledReconstructor OtherMaskReconstructor TwoVoxels OtherMasks
           eq_refl eq_refl eq_refl eq_refl eq_refl eq_refl eq_refl eq_refl
           eq_refl).
Defined.

(** A dot in a directory name counts as the last dot. *)
Example frame_file_names :
  FrameFileName "frames/image.mha" 7 = Some "frames/image007.mha" /\
  FrameFileName "image.mha" 1234 = Some "image1234.mha" /\
  FrameFileName "run.1/image" 7 = Some "run007.1/image" /\
  FrameFileName "image" 7 = None.
Proof. repeat split; reflexivity. Qed.

Lemma frame_file_name_puts_index_before_last_dot_witness :
  In "."%char (list_ascii_of_string "image.mha") /\
  exists stem rest,
    "image.mha" = stem ++ "." ++ rest /\
    FrameFileName "image.mha" 7
    = Some (stem ++ InsertInt 3 "0" 7 ++ "." ++ rest).
Proof.
  assert (H : In "."%char (list_ascii_of_string "image.mha"))
    by (cbn; tauto).
  split; [exact H |].
  destruct (frame_file_name_puts_index_before_last_dot "image.mha" 7 H)
    as (stem & rest & Hname & _ & Hfile).
  now exists stem, rest.
Defined.

Lemma frame_file_name_is_injective_witness :
  FrameFileName "image.mha" 7 = Some "image007.mha" /\ 7%nat = 7%nat.
Proof.
  split; [reflexivity |].
  exact (frame_file_name_is_injective "image.mha" "image007.mha" 7 7
           eq_refl eq_refl).
Defined.

(** Three frames, the second without a pose: all three go to
    [AddTrackedFrame], two reach [InsertSlice], and two files are written,
    numbered 0 and 2. *)
Example three_frames_are_taken_in :
  option_map
    (fun res =>
       (InsertedSlices (Reconstructor (fst res)),
        map WrittenName (snd res),
        map WrittenData (snd res)))
    (InsertFrames UnitReconstructor ThreeFrames 0 "image.mha")
  = Some (2%nat, ["image000.mha"; "image002.mha"],
          [FrameAtOrigin; FrameShifted]).
Proof. vm_compute. reflexivity. Qed.

Lemma InsertFrames_inserts_all_and_exports_posed_witness :
  exists r' written,
    InsertFrames UnitReconstructor ThreeFrames 0 "image.mha"
      = Some (r', written) /\
    r' = fold_left TakeIn ThreeFrames UnitReconstructor.
Proof.
  destruct (InsertFrames UnitReconstructor ThreeFrames 0 "image.mha")
    as [[r' written]|] eqn:E.
  - exists r', written. split; [reflexivity |].
    exact (proj1 (InsertFrames_inserts_all_and_exports_posed
                    UnitReconstructor ThreeFrames "image.mha" r' written E)).
  - vm_compute in E. discriminate E.
Defined.

Lemma InsertFrames_names_are_distinct_witness :
  exists r' written,
    InsertFrames UnitReconstructor ThreeFrames 0 "image.mha"
      = Some (r', written) /\
    NoDup (map WrittenName written).
Proof.
  destruct (InsertFrames UnitReconstructor ThreeFrames 0 "image.mha")
    as [[r' written]|] eqn:E.
  - exists r', written. split; [reflexivity |].
    exact (InsertFrames_names_are_distinct
             UnitReconstructor ThreeFrames "image.mha" r' written E).
  - vm_compute in E. discriminate E.
Defined.

(** Without a dot in the output name the run ends at the first frame that
    has a pose. *)
Example run_without_extension :
  InsertFrames UnitReconstructor ThreeFrames 0 "image" = None /\
  InsertFrames UnitReconstructor [FrameWithoutPose] 0 "image"
    = Some (UnitReconstructor, []).
Proof. split; reflexivity. Qed.

Lemma Reconstruct_volume_does_not_depend_on_export_witness :
  exists written volume,
    Reconstruct VTK_DOUBLE_MAX VTK_DOUBLE_MIN ProbeToolType ParseDoubles
      Uninitialized (NewFilter [1; 1; 1]) CompleteConfig ThreeFrames
      "image.mha" = Some (written, volume) /\
    Reconstruct VTK_DOUBLE_MAX VTK_DOUBLE_MIN ProbeToolType ParseDoubles
      Uninitialized (NewFilter [1; 1; 1]) CompleteConfig ThreeFrames ""
    = Some ([], volume).
Proof.
  destruct (Reconstruct VTK_DOUBLE_MAX VTK_DOUBLE_MIN ProbeToolType
              ParseDoubles Uninitialized (NewFilter [1; 1; 1])
              CompleteConfig ThreeFrames "image.mha")
    as [[written volume]|] eqn:E.
  - exists written, volume. split; [reflexivity |].
    exact (Reconstruct_volume_does_not_depend_on_export
             VTK_DOUBLE_MAX VTK_DOUBLE_MIN ProbeToolType ParseDoubles
             Uninitialized (NewFilter [1; 1; 1]) CompleteConfig ThreeFrames
             "image.mha" written volume E).
  - vm_compute in E. discriminate E.
Defined.

Lemma Reconstruct_exports_under_the_calibration_read_witness :
  fst (ReadConfiguration ProbeToolType ParseDoubles Uninitialized
         (New (NewFilter [1; 1; 1])) ConfigWithoutTracker) = PLUS_FAIL /\
  exists written volume,
    Reconstruct VTK_DOUBLE_MAX VTK_DOUBLE_MIN ProbeToolType ParseDoubles
      Uninitialized (NewFilter [1; 1; 1]) ConfigWithoutTracker ThreeFrames
      "image.mha" = Some (written, volume) /\
    Forall2 (ExportOf "image.mha" Identity) written
            (PosedFrames 0 ThreeFrames).
Proof.
  split; [reflexivity |].
  destruct (Reconstruct VTK_DOUBLE_MAX VTK_DOUBLE_MIN ProbeToolType
              ParseDoubles Uninitialized (NewFilter [1; 1; 1])
              ConfigWithoutTracker ThreeFrames "image.mha")
    as [[written volume]|] eqn:E.
  - exists written, volume. split; [reflexivity |].
    assert (Hne : "image.mha" <> "") by discriminate.
    exact (proj1 (Reconstruct_exports_under_the_calibration_read
                    VTK_DOUBLE_MAX VTK_DOUBLE_MIN ProbeToolType ParseDoubles
                    Uninitialized (NewFilter [1; 1; 1]) ConfigWithoutTracker
                    ThreeFrames "image.mha" written volume Hne E)).
  - vm_compute in E. discriminate E.
Defined.

End MoreRuns.
